(** * Shoe Store API: the product listing contract of [main.py]

    A shallow embedding of the request handlers of [main.py]
    ([ensure_seed], [list_products], [featured_products], [test_database])
    together with the Python values they manipulate, and the properties
    of the listing contract proved about them. *)

From Stdlib Require Import ZArith String List.
From Stdlib Require Import Floats.PrimFloat Floats.SpecFloat Floats.FloatOps.
From Stdlib Require Import Floats.FloatAxioms.
From stdpp Require Import gmap strings list fin_maps pretty.

Local Open Scope Z_scope.
Local Open Scope string_scope.

(** ** Python values and exceptions *)

Module Py.

(** The values a stored product document binds its keys to: the scalars
    and lists [ProductIn] declares, and the identity the store assigns.
    An [ObjectId] is carried as the text [str] prints for it. *)
#[warnings="-register-all"]
Inductive pyval : Type :=
  | VNone
  | VBool (b : bool)
  | VInt (z : Z)
  | VFloat (f : float)
  | VStr (s : string)
  | VList (l : list pyval)
  | VObjectId (hex : string).

(** A document, a keyword dictionary, a query filter: a [dict] with string keys. *)
Abbreviation document := (gmap string pyval).

(** Exception classes that reach the handlers; every one derives from
    [Exception], so [except Exception] catches each of them. *)
Inductive exn_class : Type :=
  | StoreFailure
  | TypeError
  | ValueError
  | OverflowError
  | ValidationError.

Record exn : Type := Exn { exn_cls : exn_class; exn_msg : string }.

(** [str(e)] *)
Definition str_exn (e : exn) : string := exn_msg e.

Inductive result (A : Type) : Type :=
  | Ok (a : A)
  | Raise (e : exn).
Arguments Ok {A} a.
Arguments Raise {A} e.

Definition rbind {A B} (r : result A) (k : A -> result B) : result B :=
  match r with
  | Ok a => k a
  | Raise e => Raise e
  end.

(** The text-level builtins whose output the handlers never inspect:
    parsing a numeral out of a [str], and printing a float or a list. *)
Class Text : Type := {
  float_of_string : string -> option float;
  py_repr : pyval -> string
}.

(** An instance to evaluate the handlers on documents that hold no
    numeral as text and no float or list as identity. *)
Definition bare_text : Text :=
  {| float_of_string := fun _ => None; py_repr := fun _ => "" |}.

(** [float(z)] for an [int]: round to nearest, ties to even. *)
Definition float_of_Z (z : Z) : float :=
  SF2Prim (binary_normalize 53 1024 z 0 false).

Section Builtins.
Context `{Text}.

(** [str(v)] *)
Definition py_str (v : pyval) : string :=
  match v with
  | VNone => "None"
  | VBool true => "True"
  | VBool false => "False"
  | VInt z => pretty z
  | VStr s => s
  | VObjectId hex => hex
  | VFloat _ | VList _ => py_repr v
  end.

(** [float(v)] *)
Definition py_float (v : pyval) : result float :=
  match v with
  | VFloat f => Ok f
  | VInt z =>
      let f := float_of_Z z in
      if is_infinity f
      then Raise (Exn OverflowError "int too large to convert to float")
      else Ok f
  | VBool b => Ok (if b then 1%float else 0%float)
  | VStr s =>
      match float_of_string s with
      | Some f => Ok f
      | None => Raise (Exn ValueError "could not convert string to float")
      end
  | VNone | VList _ | VObjectId _ =>
      Raise (Exn TypeError "float() argument must be a string or a real number")
  end.

End Builtins.

(** [bool(v)] *)
Definition py_bool (v : pyval) : bool :=
  match v with
  | VNone => false
  | VBool b => b
  | VInt z => negb (z =? 0)%Z
  | VFloat f => negb (f =? 0)%float
  | VStr s => negb (String.eqb s "")
  | VList l => match l with [] => false | _ => true end
  | VObjectId _ => true
  end.

(** A [str] is held as its UTF-8 text: one character is a leading
    byte and the continuation bytes (of the form 10xxxxxx) after it. *)
Definition is_continuation (a : Ascii.ascii) : bool :=
  match a with
  | Ascii.Ascii _ _ _ _ _ _ b6 b7 => b7 && negb b6
  end.

(** [s[:n]] for a [str] [s]: its first [n] characters. *)
Fixpoint str_slice_to (n : nat) (s : string) : string :=
  match s with
  | EmptyString => EmptyString
  | String a rest =>
      if is_continuation a then String a (str_slice_to n rest)
      else match n with
           | O => EmptyString
           | S n' => String a (str_slice_to n' rest)
           end
  end.

(** [s or None] for a [str] [s] *)
Definition str_or_None (s : string) : option string :=
  if String.eqb s "" then None else Some s.

(** [d.get(k)] and [d.get(k, dflt)] *)
Definition dict_get (d : document) (k : string) : pyval :=
  default VNone (d !! k).
Definition dict_get_or (d : document) (k : string) (dflt : pyval) : pyval :=
  default dflt (d !! k).

(** [l[:stop]] *)
Definition slice_to {A} (stop : Z) (l : list A) : list A :=
  let n := Z.of_nat (length l) in
  let hi := if (stop <? 0)%Z then Z.max 0 (n + stop) else Z.min stop n in
  take (Z.to_nat hi) l.

(** Equality of two values as a query compares them. *)
Fixpoint pyval_eqb (a b : pyval) : bool :=
  match a, b with
  | VNone, VNone => true
  | VBool x, VBool y => Bool.eqb x y
  | VInt x, VInt y => (x =? y)%Z
  | VFloat x, VFloat y => (x =? y)%float
  | VStr x, VStr y => String.eqb x y
  | VObjectId x, VObjectId y => String.eqb x y
  | VList xs, VList ys =>
      (fix all2 (xs ys : list pyval) : bool :=
         match xs, ys with
         | [], [] => true
         | x :: xs', y :: ys' => pyval_eqb x y && all2 xs' ys'
         | _, _ => false
         end) xs ys
  | _, _ => false
  end.

End Py.
Export Py.

(** ** The response model *)

(** [ProductOut]: the fields of [ProductIn] and the optional [id]. *)
Record ProductOut : Type := {
  id : option string;
  title : string;
  description : option string;
  price : float;
  category : string;
  in_stock : bool;
  image : option string;
  brand : option string;
  colors : option (list string)
}.

(** The dictionary [obj] each loop iteration builds.  Its nine keys are
    fixed; [id], [price] and [in_stock] hold what [str(..) or None],
    [float(..)] and [bool(..)] return, the other keys what [it.get]
    returns. *)
Record obj : Type := {
  o_id : option string;
  o_title : pyval;
  o_description : pyval;
  o_price : float;
  o_category : pyval;
  o_in_stock : bool;
  o_image : pyval;
  o_brand : pyval;
  o_colors : pyval
}.

Module Model.

(** Validation of one keyword against its declared type: [str],
    [Optional[str]], [Optional[List[str]]], and [float] with [ge=0]. *)
Definition as_str (v : pyval) : option string :=
  match v with VStr s => Some s | _ => None end.

Definition as_opt_str (v : pyval) : option (option string) :=
  match v with
  | VNone => Some None
  | VStr s => Some (Some s)
  | _ => None
  end.

Definition as_opt_str_list (v : pyval) : option (option (list string)) :=
  match v with
  | VNone => Some None
  | VList l => Some <$> mapM as_str l
  | _ => None
  end.

Definition as_ge0 (f : float) : option float :=
  if (0 <=? f)%float then Some f else None.

Definition validation_error : exn :=
  Exn ValidationError "validation error for ProductOut".

(** The constructor call of [ProductOut] on the keywords of [obj]. *)
Definition new_ProductOut (o : obj) : result ProductOut :=
  match as_str (o_title o), as_opt_str (o_description o), as_ge0 (o_price o),
        as_str (o_category o), as_opt_str (o_image o), as_opt_str (o_brand o),
        as_opt_str_list (o_colors o) with
  | Some t, Some d, Some p, Some c, Some i, Some b, Some cs =>
      Ok {| id := o_id o; title := t; description := d; price := p;
            category := c; in_stock := o_in_stock o; image := i; brand := b;
            colors := cs |}
  | _, _, _, _, _, _, _ => Raise validation_error
  end.

(** The values a [ProductOut] holds, read back as Python values. *)
Definition of_opt_str (o : option string) : pyval :=
  match o with Some s => VStr s | None => VNone end.
Definition of_opt_str_list (o : option (list string)) : pyval :=
  match o with Some l => VList (VStr <$> l) | None => VNone end.

End Model.
Export Model.

(** ** Handlers as state transformers that may raise *)

Module Eff.

(** A computation over a state [S]: it returns or raises, and the state
    it leaves behind is kept in both cases. *)
Definition M (S A : Type) : Type := S -> result A * S.

Definition ret {S A} (a : A) : M S A := fun s => (Ok a, s).

Definition raise {S A} (e : exn) : M S A := fun s => (Raise e, s).

Definition bind {S A B} (m : M S A) (k : A -> M S B) : M S B :=
  fun s =>
    match m s with
    | (Ok a, s') => k a s'
    | (Raise e, s') => (Raise e, s')
    end.

(** [try: body except Exception as e: handler] *)
Definition try_except {S A} (body : M S A) (handler : exn -> M S A) : M S A :=
  fun s =>
    match body s with
    | (Ok a, s') => (Ok a, s')
    | (Raise e, s') => handler e s'
    end.

Definition lift {S A} (r : result A) : M S A := fun s => (r, s).

Definition gets {S A} (f : S -> A) : M S A := fun s => (Ok (f s), s).

Definition modify {S} (f : S -> S) : M S unit := fun s => (Ok tt, f s).

(** A local variable of type [L] beside the state: a computation on the
    state alone runs unchanged, and the local is dropped at the end. *)
Definition on_snd {L S A} (m : M S A) : M (L * S) A :=
  fun ls => let (r, s') := m ls.2 in (r, (ls.1, s')).

Definition with_local {L S A} (l0 : L) (m : M (L * S) A) : M S A :=
  fun s => let (r, ls) := m (l0, s) in (r, ls.2).

Declare Scope eff_scope.
Delimit Scope eff_scope with eff.
Notation "'let*' x ':=' m 'in' k" :=
  (bind m (fun x => k))
  (at level 10, x name, m at level 100, k at level 200) : eff_scope.
Notation "m '>>' k" :=
  (bind m (fun _ => k))
  (at level 100, k at level 200, right associativity) : eff_scope.

(** [for x in l: body x] *)
Fixpoint for_each {S A} (l : list A) (body : A -> M S unit) : M S unit :=
  match l with
  | [] => ret tt
  | x :: rest => bind (body x) (fun _ => for_each rest body)
  end.

(** The outcome of running [m] from [s]: [Q] holds of what it returns,
    [E] of what it raises. *)
Definition wp {S A} (m : M S A) (Q : A -> S -> Prop) (E : exn -> S -> Prop)
    (s : S) : Prop :=
  match m s with
  | (Ok a, s') => Q a s'
  | (Raise e, s') => E e s'
  end.

End Eff.
Export Eff.
Local Open Scope eff_scope.

(** ** The document store *)

Module Store.

(** The database behind the handle [db]: its name when it has one, its
    collections, and the counter identities are drawn from. *)
Record Database : Type := {
  db_name : option string;
  collections : gmap string (list document);
  next_id : N
}.

(** The calls the handlers make on the store. *)
Inductive StoreOp : Type :=
  | CountDocuments (c : string)
  | CreateDocument (c : string) (data : document)
  | GetDocuments (c : string) (filter_dict : document) (limit : Z)
  | ListCollectionNames.

(** What a handler runs against: the handle [db] ([None] when it was
    never configured); for each coming store call whether it fails, and
    with which message ([Some msg]; past the end of the schedule every
    call succeeds); the store calls made so far; and [os.environ]. *)
Record World : Type := {
  db : option Database;
  faults : list (option string);
  trace : list StoreOp;
  environ : gmap string string
}.

Definition log (op : StoreOp) (w : World) : World :=
  {| db := db w; faults := faults w; trace := (trace w ++ [op])%list;
     environ := environ w |}.

Definition set_db (d : Database) (fs : list (option string)) (w : World) : World :=
  {| db := Some d; faults := fs; trace := trace w; environ := environ w |}.

Definition set_faults (fs : list (option string)) (w : World) : World :=
  {| db := db w; faults := fs; trace := trace w; environ := environ w |}.

Definition unavailable : exn := Exn StoreFailure "Database not available".

(** Modelled from the spec: the store collaborator of [database.py],
    which is not part of the sources.  A call is recorded; it raises
    when the handle is unset or when the store is unreachable for this
    call, and otherwise runs [op] on the database. *)
Definition store_call {A} (name : StoreOp)
    (op : Database -> A * Database) : M World A :=
  fun w =>
    let w := log name w in
    match db w with
    | None => (Raise unavailable, w)
    | Some d =>
        match faults w with
        | Some msg :: fs => (Raise (Exn StoreFailure msg), set_faults fs w)
        | None :: fs => let (a, d') := op d in (Ok a, set_db d' fs w)
        | [] => let (a, d') := op d in (Ok a, set_db d' [] w)
        end
    end.

Definition collection (d : Database) (c : string) : list document :=
  default [] (collections d !! c).

(** Modelled from the spec: [db[c].count_documents({})], the number of
    documents of the collection. *)
Definition count_documents (c : string) : M World nat :=
  store_call (CountDocuments c) (fun d => (length (collection d c), d)).

(** Modelled from the spec: [create_document(collection, doc) -> id].
    The store keeps the document under an identity of its own and hands
    that identity back as text. *)
Definition create_document (c : string) (data : document) : M World string :=
  store_call (CreateDocument c data) (fun d =>
    let oid := pretty (next_id d) in
    let stored := <["_id" := VObjectId oid]> data in
    (oid,
     {| db_name := db_name d;
        collections := <[c := (collection d c ++ [stored])%list]> (collections d);
        next_id := N.succ (next_id d) |})).

(** Modelled from the spec: a document matches a filter when it binds
    every key of the filter to the filter's value. *)
Definition matches (filter_dict doc : document) : bool :=
  forallb (fun kv : string * pyval =>
             match doc !! kv.1 with
             | Some v => pyval_eqb v kv.2
             | None => false
             end)
          (map_to_list filter_dict).

(** Modelled from the spec:
    [get_documents(collection, filter, limit) -> sequence of documents],
    up to [limit] matching documents, in the order the store holds them. *)
Definition get_documents (c : string) (filter_dict : document) (limit : Z)
    : M World (list document) :=
  store_call (GetDocuments c filter_dict limit) (fun d =>
    (take (Z.to_nat limit) (List.filter (matches filter_dict) (collection d c)), d)).

(** Modelled from the spec: [db.list_collection_names()]. *)
Definition list_collection_names : M World (list string) :=
  store_call ListCollectionNames (fun d =>
    ((map_to_list (collections d)).*1, d)).

(** [os.getenv(k)] *)
Definition getenv (k : string) : M World (option string) :=
  gets (fun w => environ w !! k).

End Store.
Export Store.

(** ** [main.py] *)

Module Main.

Definition colours (l : list string) : pyval := VList (VStr <$> l).

Definition SAMPLE_PRODUCTS : list document :=
  [ list_to_map
      [ ("title", VStr "Air Nova Runner");
        ("description", VStr "Featherlight daily trainer with responsive foam midsole.");
        ("price", VFloat 149%float);
        ("category", VStr "running");
        ("in_stock", VBool true);
        ("image", VStr "https://images.unsplash.com/photo-1542291026-7eec264c27ff?q=80&w=1200&auto=format&fit=crop");
        ("brand", VStr "Nova");
        ("colors", colours ["black"; "volt"; "white"]) ];
    list_to_map
      [ ("title", VStr "Atlas Court Pro");
        ("description", VStr "Premium leather court shoe with heritage styling.");
        ("price", VFloat 179%float);
        ("category", VStr "lifestyle");
        ("in_stock", VBool true);
        ("image", VStr "https://images.unsplash.com/photo-1525966222134-fcfa99b8ae77?q=80&w=1200&auto=format&fit=crop");
        ("brand", VStr "Atlas");
        ("colors", colours ["white"; "navy"; "gold"]) ];
    list_to_map
      [ ("title", VStr "Storm Glide TR");
        ("description", VStr "Trail-ready outsole and water-repellent upper.");
        ("price", VFloat 159%float);
        ("category", VStr "trail");
        ("in_stock", VBool true);
        ("image", VStr "https://images.unsplash.com/photo-1608231387042-66d1773070a5?q=80&w=1200&auto=format&fit=crop");
        ("brand", VStr "Storm");
        ("colors", colours ["slate"; "orange"; "charcoal"]) ];
    list_to_map
      [ ("title", VStr "Pulse React 2");
        ("description", VStr "Max cushioning with dynamic energy return.");
        ("price", VFloat 199%float);
        ("category", VStr "running");
        ("in_stock", VBool true);
        ("image", VStr "https://images.unsplash.com/photo-1603808033192-6aa3c0d03ff2?q=80&w=1200&auto=format&fit=crop");
        ("brand", VStr "Pulse");
        ("colors", colours ["crimson"; "white"; "black"]) ] ].

Definition ensure_seed : M World unit :=
  let* handle := gets db in
  match handle with
  | None => ret tt
  | Some _ =>
      try_except
        (let* count := count_documents "product" in
         if (count =? 0)%nat
         then for_each SAMPLE_PRODUCTS
                (fun p => create_document "product" p >> ret tt)
         else ret tt)
        (fun _ => ret tt)
  end.

(** [filter_dict] as [list_products] builds it from [category]. *)
Definition filter_dict_of (category : option string) : document :=
  let filter_dict : document := ∅ in
  match category with
  | Some c =>
      if negb (String.eqb c "")
      then <["category" := VStr c]> filter_dict
      else filter_dict
  | None => filter_dict
  end.

Section Handlers.
Context `{Text}.

(** The dictionary built in the loop of [list_products]. *)
Definition list_products_obj (it : document) : result obj :=
  let o_id := str_or_None (py_str (dict_get_or it "_id" (VStr ""))) in
  let o_title := dict_get it "title" in
  let o_description := dict_get it "description" in
  rbind (py_float (dict_get_or it "price" (VInt 0))) (fun o_price =>
  let o_category := dict_get_or it "category" (VStr "shoes") in
  let o_in_stock := py_bool (dict_get_or it "in_stock" (VBool true)) in
  let o_image := dict_get it "image" in
  let o_brand := dict_get it "brand" in
  let o_colors := dict_get it "colors" in
  Ok {| o_id := o_id; o_title := o_title; o_description := o_description;
        o_price := o_price; o_category := o_category;
        o_in_stock := o_in_stock; o_image := o_image; o_brand := o_brand;
        o_colors := o_colors |}).

Definition list_products_normalize (it : document) : result ProductOut :=
  rbind (list_products_obj it) new_ProductOut.

(** [for it in items: ... out.append(ProductOut(..))] of [list_products] *)
Fixpoint list_products_loop (items : list document) (out : list ProductOut)
    : result (list ProductOut) :=
  match items with
  | [] => Ok out
  | it :: rest =>
      rbind (list_products_normalize it) (fun p =>
      list_products_loop rest (out ++ [p])%list)
  end.

(** The raw documents [list_products] normalizes: the seed guard, then
    the store query or the sample fallback. *)
Definition list_products_items (limit : Z) (category : option string)
    : M World (list document) :=
  ensure_seed >>
  let filter_dict := filter_dict_of category in
  try_except
    (get_documents "product" filter_dict limit)
    (fun _ => ret (slice_to limit SAMPLE_PRODUCTS)).

Definition list_products (limit : Z) (category : option string)
    : M World (list ProductOut) :=
  let* items := list_products_items limit category in
  lift (list_products_loop items []).

(** The dictionary built in the loop of [featured_products]. *)
Definition featured_products_obj (it : document) : result obj :=
  let o_id := str_or_None (py_str (dict_get_or it "_id" (VStr ""))) in
  let o_title := dict_get it "title" in
  let o_description := dict_get it "description" in
  rbind (py_float (dict_get_or it "price" (VInt 0))) (fun o_price =>
  let o_category := dict_get_or it "category" (VStr "shoes") in
  let o_in_stock := py_bool (dict_get_or it "in_stock" (VBool true)) in
  let o_image := dict_get it "image" in
  let o_brand := dict_get it "brand" in
  let o_colors := dict_get it "colors" in
  Ok {| o_id := o_id; o_title := o_title; o_description := o_description;
        o_price := o_price; o_category := o_category;
        o_in_stock := o_in_stock; o_image := o_image; o_brand := o_brand;
        o_colors := o_colors |}).

Definition featured_products_normalize (it : document) : result ProductOut :=
  rbind (featured_products_obj it) new_ProductOut.

Fixpoint featured_products_loop (items : list document) (out : list ProductOut)
    : result (list ProductOut) :=
  match items with
  | [] => Ok out
  | it :: rest =>
      rbind (featured_products_normalize it) (fun p =>
      featured_products_loop rest (out ++ [p])%list)
  end.

Definition featured_products_items : M World (list document) :=
  ensure_seed >>
  try_except
    (get_documents "product" ∅ 4)
    (fun _ => ret (slice_to 4 SAMPLE_PRODUCTS)).

Definition featured_products : M World (list ProductOut) :=
  let* items := featured_products_items in
  lift (featured_products_loop items []).

End Handlers.

(** [response[k] = v] on the local [response] of [test_database] *)
Definition set_item (k : string) (v : pyval) : M (document * World) unit :=
  modify (fun rw => (<[k := v]> rw.1, rw.2)).

(** Truth value of what [os.getenv] returns. *)
Definition env_truthy (v : option string) : bool :=
  match v with
  | Some s => negb (String.eqb s "")
  | None => false
  end.

Definition test_database : M World document :=
  with_local
    (list_to_map
       [ ("backend", VStr "✅ Running");
         ("database", VStr "❌ Not Available");
         ("database_url", VNone);
         ("database_name", VNone);
         ("connection_status", VStr "Not Connected");
         ("collections", VList []) ] : document)
    (try_except
       (let* handle := on_snd (gets db) in
        match handle with
        | Some d =>
            set_item "database" (VStr "✅ Available") >>
            set_item "database_url" (VStr "✅ Configured") >>
            set_item "database_name"
              (VStr (match db_name d with
                     | Some n => n
                     | None => "✅ Connected"
                     end)) >>
            set_item "connection_status" (VStr "Connected") >>
            try_except
              (let* collections := on_snd list_collection_names in
               set_item "collections" (VList (VStr <$> slice_to 10 collections)) >>
               set_item "database" (VStr "✅ Connected & Working"))
              (fun e =>
                 set_item "database"
                   (VStr ("⚠️  Connected but Error: " +:+ str_slice_to 50 (str_exn e))))
        | None => set_item "database" (VStr "⚠️  Available but not initialized")
        end)
       (fun e =>
          set_item "database" (VStr ("❌ Error: " +:+ str_slice_to 50 (str_exn e)))) >>
     (let* url := on_snd (getenv "DATABASE_URL") in
      set_item "database_url"
        (VStr (if env_truthy url then "✅ Set" else "❌ Not Set")) >>
      let* name := on_snd (getenv "DATABASE_NAME") in
      set_item "database_name"
        (VStr (if env_truthy name then "✅ Set" else "❌ Not Set")) >>
      gets fst)).

End Main.
Export Main.

(** ** Notions the properties are stated with *)

Module Props.

(** A key the normalization passes through: the product holds the
    document's value, and nothing when the document has no such key. *)
Definition passed_through (it : document) (k : string) (field : pyval) : Prop :=
  match it !! k with
  | Some v => v = field
  | None => field = VNone
  end.

(** The normalization rules of the listing contract, field by field. *)
Record normalized `{Text} (it : document) (p : ProductOut) : Prop := {
  norm_id :
    match it !! "_id" with
    | Some v => id p = if String.eqb (py_str v) "" then None else Some (py_str v)
    | None => id p = None
    end;
  norm_price :
    match it !! "price" with
    | Some v => py_float v = Ok (price p)
    | None => price p = 0%float
    end;
  norm_in_stock :
    match it !! "in_stock" with
    | Some v => in_stock p = py_bool v
    | None => in_stock p = true
    end;
  norm_category :
    match it !! "category" with
    | Some v => v = VStr (category p)
    | None => category p = "shoes"
    end;
  norm_description : passed_through it "description" (of_opt_str (description p));
  norm_image : passed_through it "image" (of_opt_str (image p));
  norm_brand : passed_through it "brand" (of_opt_str (brand p));
  norm_colors : passed_through it "colors" (of_opt_str_list (colors p))
}.

(** The sample entries as products: the fields of each entry, and no
    [id]. *)
Definition SAMPLE_OUT : list ProductOut :=
  [ {| id := None; title := "Air Nova Runner";
       description := Some "Featherlight daily trainer with responsive foam midsole.";
       price := 149%float; category := "running"; in_stock := true;
       image := Some "https://images.unsplash.com/photo-1542291026-7eec264c27ff?q=80&w=1200&auto=format&fit=crop";
       brand := Some "Nova"; colors := Some ["black"; "volt"; "white"] |};
    {| id := None; title := "Atlas Court Pro";
       description := Some "Premium leather court shoe with heritage styling.";
       price := 179%float; category := "lifestyle"; in_stock := true;
       image := Some "https://images.unsplash.com/photo-1525966222134-fcfa99b8ae77?q=80&w=1200&auto=format&fit=crop";
       brand := Some "Atlas"; colors := Some ["white"; "navy"; "gold"] |};
    {| id := None; title := "Storm Glide TR";
       description := Some "Trail-ready outsole and water-repellent upper.";
       price := 159%float; category := "trail"; in_stock := true;
       image := Some "https://images.unsplash.com/photo-1608231387042-66d1773070a5?q=80&w=1200&auto=format&fit=crop";
       brand := Some "Storm"; colors := Some ["slate"; "orange"; "charcoal"] |};
    {| id := None; title := "Pulse React 2";
       description := Some "Max cushioning with dynamic energy return.";
       price := 199%float; category := "running"; in_stock := true;
       image := Some "https://images.unsplash.com/photo-1603808033192-6aa3c0d03ff2?q=80&w=1200&auto=format&fit=crop";
       brand := Some "Pulse"; colors := Some ["crimson"; "white"; "black"] |} ].

(** The first [limit] entries of a sequence. *)
Definition first_entries {A} (limit : Z) (l : list A) : list A :=
  take (Z.to_nat limit) l.

(** A sequence without its last [k] entries. *)
Definition but_last {A} (k : nat) (l : list A) : list A :=
  take (length l - k) l.

(** The titles present in a collection. *)
Definition title_of (doc : document) : option string :=
  doc !! "title" ≫= as_str.
Definition titles (docs : list document) : gset string :=
  list_to_set (omap title_of docs).

Definition sample_titles : gset string :=
  {[ "Air Nova Runner"; "Atlas Court Pro"; "Storm Glide TR"; "Pulse React 2" ]}.

(** The documents of the product collection ([[]] without a handle). *)
Definition products (w : World) : list document :=
  match db w with
  | Some d => collection d "product"
  | None => []
  end.

(** Worlds to evaluate the handlers in. *)
Definition unconfigured : World :=
  {| db := None; faults := []; trace := []; environ := ∅ |}.

Definition shop (docs : list document) : World :=
  {| db := Some {| db_name := Some "shop";
                   collections := {[ "product" := docs ]};
                   next_id := 0 |};
     faults := []; trace := []; environ := ∅ |}.

(** Two stored products, the product the first normalizes to, and a
    document that was stored without a title. *)
Definition stored_runner : document :=
  list_to_map
    [ ("_id", VObjectId "65f0c1e2a4b3d2c1f0e9d8c7");
      ("title", VStr "Air Nova Runner");
      ("price", VInt 149);
      ("category", VStr "running");
      ("colors", colours ["black"; "volt"]) ].

Definition runner_out : ProductOut :=
  {| id := Some "65f0c1e2a4b3d2c1f0e9d8c7"; title := "Air Nova Runner";
     description := None; price := 149%float; category := "running";
     in_stock := true; image := None; brand := None;
     colors := Some ["black"; "volt"] |}.

Definition stored_trail : document :=
  list_to_map
    [ ("_id", VObjectId "65f0c1e2a4b3d2c1f0e9d8c9");
      ("title", VStr "Storm Glide TR");
      ("price", VFloat 159%float);
      ("category", VStr "trail") ].

Definition untitled : document :=
  list_to_map [ ("_id", VObjectId "65f0c1e2a4b3d2c1f0e9d8c8");
                ("price", VFloat 120%float) ].

(** An entry of the status object: the collection names under
    ["collections"], at most ten of them, and a string under any other
    key. *)
Definition status_entry (k : string) (v : pyval) : Prop :=
  if String.eqb k "collections"
  then exists names : list string,
         v = VList (VStr <$> names) /\ (length names <= 10)%nat
  else exists s : string, v = VStr s.

Definition status_object (response : document) : Prop :=
  (forall k v, response !! k = Some v -> status_entry k v)
  /\ dom response
     = ({[ "backend"; "database"; "database_url"; "database_name";
           "connection_status"; "collections" ]} : gset string).

(** A key that is missing, or holds [None] or a string. *)
Definition optional_str (it : document) (k : string) : Prop :=
  it !! k = None \/ it !! k = Some VNone \/ exists s : string, it !! k = Some (VStr s).

(** The documents the normalization accepts. *)
Record acceptable `{Text} (it : document) : Prop := {
  acc_title : exists s : string, it !! "title" = Some (VStr s);
  acc_price :
    exists f, py_float (dict_get_or it "price" (VInt 0)) = Ok f
              /\ (0 <=? f)%float = true;
  acc_category :
    it !! "category" = None \/ exists s : string, it !! "category" = Some (VStr s);
  acc_description : optional_str it "description";
  acc_image : optional_str it "image";
  acc_brand : optional_str it "brand";
  acc_colors :
    it !! "colors" = None \/ it !! "colors" = Some VNone
    \/ exists l : list string, it !! "colors" = Some (VList (VStr <$> l))
}.

(** The keys of a document the normalization reads. *)
Definition read_keys : list string :=
  [ "_id"; "title"; "description"; "price"; "category"; "in_stock";
    "image"; "brand"; "colors" ].

(** A product with another [id]. *)
Definition with_id (i : option string) (p : ProductOut) : ProductOut :=
  {| id := i; title := title p; description := description p;
     price := price p; category := category p; in_stock := in_stock p;
     image := image p; brand := brand p; colors := colors p |}.

(** What [test_database] reports for an environment variable. *)
Definition env_status (v : option string) : pyval :=
  VStr (if env_truthy v then "✅ Set" else "❌ Not Set").

(** What [test_database] reports about the store in world [w]. *)
Definition store_report (w : World) (response : document) (w' : World) : Prop :=
  match db w with
  | None =>
      w' = w
      /\ response !! "database" = Some (VStr "⚠️  Available but not initialized")
      /\ response !! "connection_status" = Some (VStr "Not Connected")
      /\ response !! "collections" = Some (VList [])
  | Some _ =>
      w' = (list_collection_names w).2
      /\ response !! "connection_status" = Some (VStr "Connected")
      /\ match (list_collection_names w).1 with
         | Ok names =>
             response !! "database" = Some (VStr "✅ Connected & Working")
             /\ response !! "collections"
                = Some (VList (VStr <$> slice_to 10 names))
         | Raise e =>
             response !! "database"
             = Some (VStr ("⚠️  Connected but Error: " +:+ str_slice_to 50 (str_exn e)))
             /\ response !! "collections" = Some (VList [])
         end
  end.

End Props.
Export Props.

(** ** Properties *)

(** *** Values and validation *)

Lemma as_str_inv (v : pyval) (s : string) : as_str v = Some s -> v = VStr s.
Proof. destruct v; simpl; congruence. Qed.

Lemma as_opt_str_inv (v : pyval) (o : option string) :
  as_opt_str v = Some o -> v = of_opt_str o.
Proof. destruct v; simpl; intros [= <-]; reflexivity. Qed.

Lemma mapM_as_str_inv (l : list pyval) :
  forall l', mapM as_str l = Some l' -> l = VStr <$> l'.
Proof.
  induction l as [|v l IH]; intros l' Hm.
  - injection Hm as <-. reflexivity.
  - cbn in Hm. destruct (as_str v) as [s|] eqn:Hv; [|discriminate].
    cbn in Hm. destruct (mapM as_str l) as [k|]; [|discriminate].
    injection Hm as <-. apply as_str_inv in Hv as ->.
    cbn. f_equal. now apply IH.
Qed.

Lemma as_opt_str_list_inv (v : pyval) (o : option (list string)) :
  as_opt_str_list v = Some o -> v = of_opt_str_list o.
Proof.
  destruct v; simpl; try discriminate.
  - intros [= <-]. reflexivity.
  - destruct (mapM as_str l) as [k|] eqn:Hk; simpl; [|discriminate].
    intros [= <-]. simpl. f_equal. now apply mapM_as_str_inv.
Qed.

Lemma as_ge0_inv (f g : float) :
  as_ge0 f = Some g -> g = f /\ (0 <=? g)%float = true.
Proof.
  unfold as_ge0. destruct (0 <=? f)%float eqn:Hle; [|discriminate].
  intros [= <-]. now split.
Qed.

(** A float that is at least zero is not below zero. *)
Lemma ge0_not_negative (f : float) :
  (0 <=? f)%float = true -> (f <? 0)%float = false.
Proof.
  rewrite leb_spec, ltb_spec.
  change (Prim2SF 0) with (S754_zero false).
  destruct (Prim2SF f) as [s|s| |s m e]; try destruct s; cbn; congruence.
Qed.

(** What a successful constructor call says about its keywords. *)
Lemma new_ProductOut_inv (o : obj) (p : ProductOut) :
  new_ProductOut o = Ok p ->
  id p = o_id o /\ o_title o = VStr (title p) /\
  o_description o = of_opt_str (description p) /\
  price p = o_price o /\ (0 <=? price p)%float = true /\
  o_category o = VStr (category p) /\ in_stock p = o_in_stock o /\
  o_image o = of_opt_str (image p) /\ o_brand o = of_opt_str (brand p) /\
  o_colors o = of_opt_str_list (colors p).
Proof.
  unfold new_ProductOut.
  destruct (as_str (o_title o)) as [t|] eqn:Ht; [|discriminate].
  destruct (as_opt_str (o_description o)) as [d|] eqn:Hd; [|discriminate].
  destruct (as_ge0 (o_price o)) as [f|] eqn:Hf; [|discriminate].
  destruct (as_str (o_category o)) as [c|] eqn:Hc; [|discriminate].
  destruct (as_opt_str (o_image o)) as [i|] eqn:Hi; [|discriminate].
  destruct (as_opt_str (o_brand o)) as [b|] eqn:Hb; [|discriminate].
  destruct (as_opt_str_list (o_colors o)) as [cs|] eqn:Hcs; [|discriminate].
  intros [= <-]; simpl.
  apply as_ge0_inv in Hf as [-> Hge].
  repeat split;
    auto using as_str_inv, as_opt_str_inv, as_opt_str_list_inv.
Qed.

Lemma passed_through_get (it : document) (k : string) (field : pyval) :
  dict_get it k = field -> passed_through it k field.
Proof.
  unfold dict_get, passed_through. destruct (it !! k); simpl; auto.
Qed.

Section Normalization.
Context `{Text}.

Lemma list_products_normalize_inv (it : document) (p : ProductOut) :
  list_products_normalize it = Ok p -> normalized it p.
Proof.
  unfold list_products_normalize, list_products_obj.
  destruct (py_float (dict_get_or it "price" (VInt 0))) as [f|e] eqn:Hf;
    simpl; [|discriminate].
  intros Hp. apply new_ProductOut_inv in Hp. simpl in Hp.
  destruct Hp as (Hid & _ & Hd & Hpr & _ & Hc & Hs & Hi & Hb & Hcs).
  unfold dict_get_or in *.
  split; try (apply passed_through_get; assumption).
  - rewrite Hid. destruct (it !! "_id"); reflexivity.
  - rewrite Hpr. destruct (it !! "price"); simpl in Hf; [assumption|].
    injection Hf as <-. reflexivity.
  - rewrite Hs. destruct (it !! "in_stock"); reflexivity.
  - destruct (it !! "category"); simpl in Hc; [assumption|].
    injection Hc as <-. reflexivity.
Qed.

(** A product of either normalization block obeys the rules. *)
Lemma normalized_by_either (it : document) (p : ProductOut) :
  list_products_normalize it = Ok p \/ featured_products_normalize it = Ok p ->
  normalized it p.
Proof.
  intros [Hp|Hp]; now apply list_products_normalize_inv.
Qed.

(** C9: the block that normalizes a document in [list_products] and the
    one in [featured_products] are the same function, and so are the two
    loops built on them. *)
Theorem same_normalization (it : document) :
  list_products_normalize it = featured_products_normalize it
  /\ forall items out,
       list_products_loop items out = featured_products_loop items out.
Proof.
  split; [reflexivity|].
  induction items as [|doc items IH]; intros out; simpl; [reflexivity|].
  destruct (list_products_normalize doc) as [q|e] eqn:Hq.
  - change (featured_products_normalize doc) with (list_products_normalize doc).
    rewrite Hq. simpl. apply IH.
  - change (featured_products_normalize doc) with (list_products_normalize doc).
    rewrite Hq. reflexivity.
Qed.

End Normalization.

(** *** The seed guard *)

(** A handler around a body of type [unit] that swallows every
    exception returns. *)
Lemma swallow_returns {S} (body : M S unit) (s : S) :
  exists s', try_except body (fun _ => ret tt) s = (Ok tt, s').
Proof.
  unfold try_except, ret.
  destruct (body s) as [[[]|e] s']; eauto.
Qed.

Lemma ensure_seed_returns (w : World) :
  exists w', ensure_seed w = (Ok tt, w').
Proof.
  unfold ensure_seed, bind, gets.
  destruct (db w) as [d|].
  - apply swallow_returns.
  - exists w. reflexivity.
Qed.

Lemma ensure_seed_unset (w : World) :
  db w = None -> ensure_seed w = (Ok tt, w).
Proof.
  intros Hdb. unfold ensure_seed, bind, gets. rewrite Hdb. reflexivity.
Qed.

Lemma ensure_seed_ok (w : World) : ensure_seed w = (Ok tt, (ensure_seed w).2).
Proof.
  destruct (ensure_seed_returns w) as [w' Hw']. rewrite Hw'. reflexivity.
Qed.

(** C3: the seed guard never raises: whatever the store does during
    the count or an insert, [ensure_seed] returns; and with the handle
    unset it leaves the world as it is, making no store call at all. *)
Theorem ensure_seed_never_raises (w : World) :
  exists w', ensure_seed w = (Ok tt, w')
             /\ (db w = None -> w' = w /\ trace w' = trace w).
Proof.
  destruct (ensure_seed_returns w) as [w' Hw'].
  exists w'. split; [exact Hw'|].
  intros Hdb. rewrite (ensure_seed_unset w Hdb) in Hw'.
  injection Hw' as <-. split; reflexivity.
Qed.

(** A call on a store that answers runs the operation on the database. *)
Lemma store_call_ok {A} (name : StoreOp) (op : Database -> A * Database)
    (w : World) (d : Database) :
  db w = Some d -> faults w = [] ->
  store_call name op w = (Ok (op d).1, set_db (op d).2 [] (log name w)).
Proof.
  intros Hdb Hf. unfold store_call. simpl. rewrite Hdb, Hf.
  destruct (op d); reflexivity.
Qed.

Lemma collection_insert (d : Database) (c : string) (docs : list document)
    (n : option string) (i : N) :
  collection {| db_name := n; collections := <[c := docs]> (collections d);
                next_id := i |} c = docs.
Proof. unfold collection. simpl. now rewrite lookup_insert_eq. Qed.

Lemma create_document_ok (c : string) (data : document) (w : World)
    (d : Database) :
  db w = Some d -> faults w = [] ->
  create_document c data w
  = (Ok (pretty (next_id d)),
     set_db {| db_name := db_name d;
               collections := <[c := (collection d c ++
                    [<["_id" := VObjectId (pretty (next_id d))]> data])%list]>
                  (collections d);
               next_id := N.succ (next_id d) |}
            [] (log (CreateDocument c data) w)).
Proof.
  intros Hdb Hf. unfold create_document.
  rewrite (store_call_ok _ _ w d Hdb Hf). reflexivity.
Qed.

(** Inserting a list of documents into a store that answers appends
    them to the collection, each under a fresh identity. *)
Lemma seed_loop (ps : list document) :
  forall (w : World) (d : Database),
    db w = Some d -> faults w = [] ->
    exists w' d',
      for_each ps (fun p => create_document "product" p >> ret tt) w = (Ok tt, w')
      /\ db w' = Some d' /\ faults w' = []
      /\ delete "_id" <$> collection d' "product"
         = ((delete "_id" <$> collection d "product") ++ (delete "_id" <$> ps))%list
      /\ trace w' = (trace w ++ (CreateDocument "product" <$> ps))%list.
Proof.
  induction ps as [|p ps IH]; intros w d Hdb Hf.
  - exists w, d. simpl. rewrite !app_nil_r. repeat split; assumption.
  - simpl. unfold bind at 1 2.
    rewrite (create_document_ok "product" p w d Hdb Hf). simpl.
    match goal with
    | |- context [for_each ps ?body ?w1] =>
        destruct (IH w1 {| db_name := db_name d;
                           collections := <["product" :=
                             (collection d "product" ++
                              [<["_id" := VObjectId (pretty (next_id d))]> p])%list]>
                             (collections d);
                           next_id := N.succ (next_id d) |}
                    eq_refl eq_refl)
          as (w' & d' & Hrun & Hdb' & Hf' & Hdocs & Htr)
    end.
    exists w', d'. rewrite Hrun. repeat split; try assumption.
    + rewrite Hdocs, collection_insert, fmap_app. simpl.
      rewrite delete_insert_eq, <- app_assoc. reflexivity.
    + rewrite Htr. simpl. rewrite <- app_assoc. reflexivity.
Qed.

Lemma title_of_delete_id (doc : document) :
  title_of (delete "_id" doc) = title_of doc.
Proof. unfold title_of. now rewrite lookup_delete_ne. Qed.

Lemma titles_delete_id (docs : list document) :
  titles (delete "_id" <$> docs) = titles docs.
Proof.
  unfold titles. f_equal.
  induction docs as [|doc docs IH]; [reflexivity|].
  csimpl. rewrite title_of_delete_id, IH. reflexivity.
Qed.

Lemma sample_has_no_id : delete "_id" <$> SAMPLE_PRODUCTS = SAMPLE_PRODUCTS.
Proof.
  unfold SAMPLE_PRODUCTS. cbn [fmap list_fmap].
  rewrite !delete_id by (vm_compute; reflexivity).
  reflexivity.
Qed.

Lemma titles_of_sample : titles SAMPLE_PRODUCTS = sample_titles.
Proof.
  unfold titles.
  replace (omap title_of SAMPLE_PRODUCTS)
    with ["Air Nova Runner"; "Atlas Court Pro"; "Storm Glide TR"; "Pulse React 2"]
    by (vm_compute; reflexivity).
  unfold sample_titles. set_solver.
Qed.

Lemma bind_ok {S A B} (m : M S A) (k : A -> M S B) (s s' : S) (a : A) :
  m s = (Ok a, s') -> bind m k s = k a s'.
Proof. intros Hm. unfold bind. now rewrite Hm. Qed.

Lemma bind_raise {S A B} (m : M S A) (k : A -> M S B) (s s' : S) (e : exn) :
  m s = (Raise e, s') -> bind m k s = (Raise e, s').
Proof. intros Hm. unfold bind. now rewrite Hm. Qed.

Lemma try_ok {S A} (body : M S A) (h : exn -> M S A) (s s' : S) (a : A) :
  body s = (Ok a, s') -> try_except body h s = (Ok a, s').
Proof. intros Hm. unfold try_except. now rewrite Hm. Qed.

Lemma try_raise {S A} (body : M S A) (h : exn -> M S A) (s s' : S) (e : exn) :
  body s = (Raise e, s') -> try_except body h s = h e s'.
Proof. intros Hm. unfold try_except. now rewrite Hm. Qed.

Lemma count_documents_ok (c : string) (w : World) (d : Database) :
  db w = Some d -> faults w = [] ->
  count_documents c w
  = (Ok (length (collection d c)), set_db d [] (log (CountDocuments c) w)).
Proof.
  intros Hdb Hf. unfold count_documents.
  rewrite (store_call_ok _ _ w d Hdb Hf). reflexivity.
Qed.

(** With the handle set, the guard is its [try] block. *)
Lemma ensure_seed_set (w : World) (d : Database) :
  db w = Some d ->
  ensure_seed w
  = try_except
      (let* count := count_documents "product" in
       if (count =? 0)%nat
       then for_each SAMPLE_PRODUCTS
              (fun p => create_document "product" p >> ret tt)
       else ret tt)
      (fun _ => ret tt) w.
Proof.
  intros Hdb. unfold ensure_seed. unfold bind at 1. unfold gets.
  rewrite Hdb. reflexivity.
Qed.

(** C4: seeding is idempotent in content.  From an empty product
    collection in a store that answers, two runs of [ensure_seed] leave
    exactly the four sample documents (each under an identity), so the
    titles present are the four sample titles; the second run counts,
    finds the collection non-empty and inserts nothing. *)
Theorem seeding_twice (w : World) (d : Database) :
  db w = Some d -> faults w = [] -> collection d "product" = [] ->
  exists w1 w2,
    ensure_seed w = (Ok tt, w1) /\ ensure_seed w1 = (Ok tt, w2)
    /\ delete "_id" <$> products w2 = SAMPLE_PRODUCTS
    /\ titles (products w2) = sample_titles
    /\ products w2 = products w1
    /\ trace w2 = (trace w1 ++ [CountDocuments "product"])%list.
Proof.
  intros Hdb Hf Hempty.
  destruct (seed_loop SAMPLE_PRODUCTS
              (set_db d [] (log (CountDocuments "product") w)) d eq_refl eq_refl)
    as (w1 & d1 & Hrun & Hdb1 & Hf1 & Hdocs & Htr).
  rewrite Hempty, sample_has_no_id, app_nil_l in Hdocs.
  assert (Hlen : length (collection d1 "product") = 4%nat).
  { rewrite <- (length_fmap (delete "_id")), Hdocs. reflexivity. }
  assert (Hp1 : products w1 = collection d1 "product").
  { unfold products. now rewrite Hdb1. }
  exists w1, (set_db d1 [] (log (CountDocuments "product") w1)).
  split; [|split; [|split; [|split; [|split]]]].
  - rewrite (ensure_seed_set w d Hdb). apply try_ok.
    rewrite (bind_ok _ _ _ _ _ (count_documents_ok "product" w d Hdb Hf)).
    rewrite Hempty. exact Hrun.
  - rewrite (ensure_seed_set w1 d1 Hdb1). apply try_ok.
    rewrite (bind_ok _ _ _ _ _ (count_documents_ok "product" w1 d1 Hdb1 Hf1)).
    rewrite Hlen. reflexivity.
  - exact Hdocs.
  - change (products (set_db d1 [] (log (CountDocuments "product") w1)))
      with (collection d1 "product").
    rewrite <- titles_delete_id, Hdocs. apply titles_of_sample.
  - symmetry. exact Hp1.
  - reflexivity.
Qed.

(** Seeding twice a store whose product collection is empty. *)
Lemma seeding_twice_witness :
  db (shop []) = Some {| db_name := Some "shop";
                         collections := {[ "product" := [] ]};
                         next_id := 0 |}
  /\ faults (shop []) = []
  /\ collection {| db_name := Some "shop";
                   collections := {[ "product" := [] ]};
                   next_id := 0 |} "product" = []
  /\ exists w1 w2,
       ensure_seed (shop []) = (Ok tt, w1) /\ ensure_seed w1 = (Ok tt, w2)
       /\ delete "_id" <$> products w2 = SAMPLE_PRODUCTS
       /\ titles (products w2) = sample_titles
       /\ products w2 = products w1
       /\ trace w2 = (trace w1 ++ [CountDocuments "product"])%list.
Proof.
  split; [reflexivity|]. split; [reflexivity|]. split; [reflexivity|].
  apply (seeding_twice (shop []) _ eq_refl eq_refl). reflexivity.
Defined.

(** *** The catalog reader *)

(** [l[:stop]] for a stop that is not negative, and for a negative one. *)
Lemma slice_to_nonneg {A} (stop : Z) (l : list A) :
  0 <= stop -> slice_to stop l = first_entries stop l.
Proof.
  intros Hs. unfold slice_to, first_entries.
  destruct (Z.ltb_spec stop 0) as [?|_]; [lia|].
  destruct (Z.le_gt_cases stop (Z.of_nat (length l))) as [Hle|Hgt].
  - now rewrite Z.min_l.
  - rewrite Z.min_r, Nat2Z.id by lia.
    rewrite !take_ge; [reflexivity|lia|lia].
Qed.

Lemma slice_to_neg {A} (stop : Z) (l : list A) :
  stop < 0 -> slice_to stop l = but_last (Z.to_nat (- stop)) l.
Proof.
  intros Hs. unfold slice_to, but_last.
  destruct (Z.ltb_spec stop 0) as [_|?]; [|lia].
  f_equal. lia.
Qed.

Lemma slice_to_length {A} (stop : Z) (l : list A) :
  0 <= stop -> (length (slice_to stop l) <= Z.to_nat stop)%nat.
Proof.
  intros Hs. rewrite slice_to_nonneg by assumption.
  unfold first_entries. rewrite length_take. lia.
Qed.

Section Reader.
Context `{Text}.

(** The loop appends to [out] the product of each item, in order, and
    raises as soon as one item has none. *)
Lemma list_products_loop_inv (items : list document) :
  forall acc out,
    list_products_loop items acc = Ok out ->
    exists ps, out = (acc ++ ps)%list
               /\ Forall2 (fun doc p => list_products_normalize doc = Ok p) items ps.
Proof.
  induction items as [|doc items IH]; intros acc out Hl; simpl in Hl.
  - injection Hl as <-. exists []. rewrite app_nil_r. split; constructor.
  - destruct (list_products_normalize doc) as [p|e] eqn:Hp; [|discriminate].
    simpl in Hl. destruct (IH _ _ Hl) as (ps & -> & Hps).
    exists (p :: ps). rewrite <- app_assoc. split; [reflexivity|].
    now constructor.
Qed.

Lemma list_products_loop_all (items : list document) (ps : list ProductOut) :
  Forall2 (fun doc p => list_products_normalize doc = Ok p) items ps ->
  forall acc, list_products_loop items acc = Ok (acc ++ ps)%list.
Proof.
  induction 1 as [|doc p items ps Hp _ IH]; intros acc; simpl.
  - now rewrite app_nil_r.
  - rewrite Hp. simpl. rewrite IH, <- app_assoc. reflexivity.
Qed.

Lemma featured_products_loop_eq (items : list document) :
  forall out, featured_products_loop items out = list_products_loop items out.
Proof.
  induction items as [|doc items IH]; intros out; simpl; [reflexivity|].
  change (featured_products_normalize doc) with (list_products_normalize doc).
  destruct (list_products_normalize doc); simpl; [apply IH|reflexivity].
Qed.

(** Every sample entry normalizes to its product. *)
Lemma sample_normalized :
  Forall2 (fun doc p => list_products_normalize doc = Ok p)
          SAMPLE_PRODUCTS SAMPLE_OUT.
Proof.
  unfold SAMPLE_PRODUCTS, SAMPLE_OUT.
  repeat constructor; vm_compute; reflexivity.
Qed.

Lemma sample_prefix_loop (n : nat) :
  list_products_loop (take n SAMPLE_PRODUCTS) [] = Ok (take n SAMPLE_OUT).
Proof.
  apply (list_products_loop_all _ _ (Forall2_take _ _ _ n sample_normalized) []).
Qed.

(** [list_products] runs the guard, then the query; what it normalizes
    is the query's answer, or the slice of the sample when it raises. *)
Lemma list_products_store (limit : Z) (category : option string)
    (w w2 : World) (items : list document) :
  get_documents "product" (filter_dict_of category) limit (ensure_seed w).2
    = (Ok items, w2) ->
  list_products limit category w = (list_products_loop items [], w2).
Proof.
  intros Hq. unfold list_products, list_products_items.
  rewrite (bind_ok _ _ w w2 items); [reflexivity|].
  rewrite (bind_ok _ _ _ _ _ (ensure_seed_ok w)).
  now apply try_ok.
Qed.

Lemma list_products_fallback (limit : Z) (category : option string)
    (w w2 : World) (e : exn) :
  get_documents "product" (filter_dict_of category) limit (ensure_seed w).2
    = (Raise e, w2) ->
  list_products limit category w
  = (list_products_loop (slice_to limit SAMPLE_PRODUCTS) [], w2).
Proof.
  intros Hq. unfold list_products, list_products_items.
  rewrite (bind_ok _ _ w w2 (slice_to limit SAMPLE_PRODUCTS)); [reflexivity|].
  rewrite (bind_ok _ _ _ _ _ (ensure_seed_ok w)).
  now rewrite (try_raise _ _ _ _ _ Hq).
Qed.

(** C2, for a limit that is not negative: when the store query raises,
    [list_products] returns the products of the first [limit] entries
    of the sample, whatever the category asked for. *)
Theorem fallback_first_entries (limit : Z) (category : option string)
    (w w2 : World) (e : exn) :
  0 <= limit ->
  get_documents "product" (filter_dict_of category) limit (ensure_seed w).2
    = (Raise e, w2) ->
  list_products limit category w = (Ok (first_entries limit SAMPLE_OUT), w2)
  /\ Forall2 (fun doc p => list_products_normalize doc = Ok p)
       (first_entries limit SAMPLE_PRODUCTS) (first_entries limit SAMPLE_OUT)
  /\ (limit = 2 ->
      title <$> first_entries limit SAMPLE_OUT
      = ["Air Nova Runner"; "Atlas Court Pro"]).
Proof.
  intros Hl Hq. split; [|split].
  - rewrite (list_products_fallback _ _ _ _ _ Hq), slice_to_nonneg by assumption.
    f_equal. apply sample_prefix_loop.
  - apply Forall2_take, sample_normalized.
  - intros ->. reflexivity.
Qed.

(** C10: in fallback mode a limit of zero gives the empty sequence, and
    a negative limit gives the sample without its last [|limit|]
    entries, the slice [SAMPLE_PRODUCTS[:limit]]: three products for
    [limit = -1]. *)
Theorem fallback_nonpositive_limit (limit : Z) (category : option string)
    (w w2 : World) (e : exn) :
  limit <= 0 ->
  get_documents "product" (filter_dict_of category) limit (ensure_seed w).2
    = (Raise e, w2) ->
  exists out,
    list_products limit category w = (Ok out, w2)
    /\ (limit = 0 -> out = [])
    /\ (limit < 0 ->
        out = but_last (Z.to_nat (- limit)) SAMPLE_OUT
        /\ Forall2 (fun doc p => list_products_normalize doc = Ok p)
             (but_last (Z.to_nat (- limit)) SAMPLE_PRODUCTS) out)
    /\ (limit = -1 -> out = take 3 SAMPLE_OUT /\ length out = 3%nat).
Proof.
  intros Hl Hq. rewrite (list_products_fallback _ _ _ _ _ Hq).
  destruct (Z.eq_dec limit 0) as [->|Hne].
  - exists []. split; [reflexivity|]. split; [reflexivity|].
    split; intros; lia.
  - rewrite slice_to_neg by lia. unfold but_last.
    rewrite sample_prefix_loop.
    eexists. split; [reflexivity|]. split; [intros; lia|]. split.
    + intros _. split; [reflexivity|]. apply Forall2_take, sample_normalized.
    + intros ->. split; reflexivity.
Qed.

End Reader.

(** Limit 2 and a category, with no store configured. *)
Lemma fallback_first_entries_witness :
  0 <= 2
  /\ get_documents "product" (filter_dict_of (Some "trail")) 2
       (ensure_seed unconfigured).2
     = (Raise unavailable,
        log (GetDocuments "product" (filter_dict_of (Some "trail")) 2) unconfigured)
  /\ list_products (H := bare_text) 2 (Some "trail") unconfigured
     = (Ok (first_entries 2 SAMPLE_OUT),
        log (GetDocuments "product" (filter_dict_of (Some "trail")) 2) unconfigured)
  /\ Forall2 (fun doc p => list_products_normalize (H := bare_text) doc = Ok p)
       (first_entries 2 SAMPLE_PRODUCTS) (first_entries 2 SAMPLE_OUT)
  /\ (2 = 2 ->
      title <$> first_entries 2 SAMPLE_OUT = ["Air Nova Runner"; "Atlas Court Pro"]).
Proof.
  split; [lia|]. split; [reflexivity|].
  apply (fallback_first_entries (H := bare_text) 2 (Some "trail") unconfigured _
           unavailable); [lia|reflexivity].
Defined.

(** C2 as stated fails for a negative limit: with no store configured,
    [limit = -1] returns three products, where the first [-1] entries of
    the sample are none. *)
Lemma fallback_negative_limit_counterexample :
  (get_documents "product" (filter_dict_of None) (-1) (ensure_seed unconfigured).2).1
    = Raise unavailable
  /\ (list_products (H := bare_text) (-1) None unconfigured).1
     = Ok (take 3 SAMPLE_OUT)
  /\ first_entries (-1) SAMPLE_PRODUCTS = []
  /\ first_entries (-1) SAMPLE_OUT = [].
Proof.
  split; [reflexivity|]. split; [vm_compute; reflexivity|].
  split; reflexivity.
Qed.

(** Limit -1 with no store configured. *)
Lemma fallback_nonpositive_limit_witness :
  -1 <= 0
  /\ get_documents "product" (filter_dict_of None) (-1) (ensure_seed unconfigured).2
     = (Raise unavailable,
        log (GetDocuments "product" (filter_dict_of None) (-1)) unconfigured)
  /\ exists out,
       list_products (H := bare_text) (-1) None unconfigured
       = (Ok out, log (GetDocuments "product" (filter_dict_of None) (-1)) unconfigured)
       /\ (-1 = 0 -> out = [])
       /\ (-1 < 0 ->
           out = but_last (Z.to_nat (- -1)) SAMPLE_OUT
           /\ Forall2 (fun doc p => list_products_normalize (H := bare_text) doc = Ok p)
                (but_last (Z.to_nat (- -1)) SAMPLE_PRODUCTS) out)
       /\ (-1 = -1 -> out = take 3 SAMPLE_OUT /\ length out = 3%nat).
Proof.
  split; [lia|]. split; [reflexivity|].
  apply (fallback_nonpositive_limit (H := bare_text) (-1) None unconfigured _
           unavailable); [lia|reflexivity].
Defined.

(** *** Reading from the store *)

(** What a store query that returns has returned, and the call it
    leaves in the trace whether it returns or not. *)
Lemma get_documents_inv (c : string) (flt : document) (limit : Z)
    (w w2 : World) (items : list document) :
  get_documents c flt limit w = (Ok items, w2) ->
  exists d, db w = Some d
            /\ items = take (Z.to_nat limit) (List.filter (matches flt) (collection d c)).
Proof.
  unfold get_documents, store_call. simpl.
  destruct (db w) as [d|]; [|discriminate].
  destruct (faults w) as [|[msg|] fs]; try discriminate;
    intros [= <- _]; exists d; split; reflexivity.
Qed.

Lemma get_documents_trace (c : string) (flt : document) (limit : Z) (w : World) :
  trace (get_documents c flt limit w).2
  = (trace w ++ [GetDocuments c flt limit])%list.
Proof.
  unfold get_documents, store_call. simpl.
  destruct (db w) as [d|]; [|reflexivity].
  destruct (faults w) as [|[msg|] fs]; reflexivity.
Qed.

(** No filter: every document matches. *)
Lemma filter_no_filter (docs : list document) :
  List.filter (matches ∅) docs = docs.
Proof.
  induction docs as [|doc docs IH]; [reflexivity|].
  simpl. unfold matches at 1. rewrite map_to_list_empty. simpl.
  now rewrite IH.
Qed.

Lemma pyval_eqb_str (v : pyval) (s : string) :
  pyval_eqb v (VStr s) = true -> v = VStr s.
Proof.
  destruct v; simpl; try discriminate.
  intros Heq. apply String.eqb_eq in Heq. now subst.
Qed.

(** The filter [list_products] builds binds [category], and only when
    the argument is a non-empty string. *)
Lemma filter_dict_of_lookup (cat : option string) (k : string) (v : pyval) :
  filter_dict_of cat !! k = Some v
  <-> k = "category" /\ exists c, cat = Some c /\ c <> "" /\ v = VStr c.
Proof.
  unfold filter_dict_of. destruct cat as [c|].
  - destruct (String.eqb_spec c "") as [->|Hne]; simpl.
    + rewrite lookup_empty. split; [discriminate|].
      intros (_ & c & [= <-] & Hc & _). now destruct Hc.
    + rewrite lookup_insert. case_decide as Hk.
      * subst k. split.
        -- intros [= <-]. split; [reflexivity|]. now exists c.
        -- intros (_ & c' & [= <-] & _ & ->). reflexivity.
      * rewrite lookup_empty. split; [discriminate|].
        intros (-> & _). now destruct Hk.
  - rewrite lookup_empty. split; [discriminate|].
    intros (_ & c & [=] & _).
Qed.

Lemma matches_category (c : string) (doc : document) :
  c <> "" ->
  matches (filter_dict_of (Some c)) doc = true -> doc !! "category" = Some (VStr c).
Proof.
  intros Hc. unfold filter_dict_of.
  destruct (String.eqb_spec c "") as [?|_]; [contradiction|]. simpl.
  unfold matches. rewrite insert_empty, map_to_list_singleton. simpl.
  destruct (doc !! "category") as [v|]; [|discriminate].
  rewrite andb_true_r. intros Hv. now rewrite (pyval_eqb_str _ _ Hv).
Qed.

Section StoreReader.
Context `{Text}.

Lemma list_products_loop_raise (items : list document) :
  Exists (fun doc => forall p, list_products_normalize doc <> Ok p) items ->
  forall acc, exists e, list_products_loop items acc = Raise e.
Proof.
  induction 1 as [doc items Hdoc|doc items _ IH]; intros acc; simpl.
  - destruct (list_products_normalize doc) as [p|e]; [now destruct (Hdoc p)|].
    now exists e.
  - destruct (list_products_normalize doc) as [p|e]; simpl; [apply IH|].
    now exists e.
Qed.

Lemma featured_products_store (w w2 : World) (items : list document) :
  get_documents "product" ∅ 4 (ensure_seed w).2 = (Ok items, w2) ->
  featured_products w = (list_products_loop items [], w2).
Proof.
  intros Hq. unfold featured_products, featured_products_items.
  rewrite (bind_ok _ _ w w2 items).
  - unfold lift. now rewrite featured_products_loop_eq.
  - rewrite (bind_ok _ _ _ _ _ (ensure_seed_ok w)). now apply try_ok.
Qed.

Lemma featured_products_fallback (w w2 : World) (e : exn) :
  get_documents "product" ∅ 4 (ensure_seed w).2 = (Raise e, w2) ->
  featured_products w = (Ok SAMPLE_OUT, w2).
Proof.
  intros Hq. unfold featured_products, featured_products_items.
  rewrite (bind_ok _ _ w w2 (slice_to 4 SAMPLE_PRODUCTS)).
  - unfold lift. rewrite featured_products_loop_eq.
    change (slice_to 4 SAMPLE_PRODUCTS) with (take 4 SAMPLE_PRODUCTS).
    now rewrite sample_prefix_loop.
  - rewrite (bind_ok _ _ _ _ _ (ensure_seed_ok w)).
    now rewrite (try_raise _ _ _ _ _ Hq).
Qed.

(** C5, with the proviso that documents normalize: [featured_products]
    asks the store for up to 4 documents with no filter.  When the query
    returns, its answer is the first 4 documents of the collection,
    [min 4 available] of them; if each normalizes, the handler returns
    their products, and if one does not, the handler raises.  When the
    query raises, the handler returns the products of the first 4 sample
    entries. *)
Theorem featured_products_min_4 (w w2 : World) (r : result (list document)) :
  get_documents "product" ∅ 4 (ensure_seed w).2 = (r, w2) ->
  trace w2 = (trace (ensure_seed w).2 ++ [GetDocuments "product" ∅ 4])%list
  /\ match r with
     | Ok items =>
         items = take 4 (products (ensure_seed w).2)
         /\ length items = (4 `min` length (products (ensure_seed w).2))%nat
         /\ (forall out,
               Forall2 (fun doc p => featured_products_normalize doc = Ok p) items out ->
               featured_products w = (Ok out, w2)
               /\ length out = (4 `min` length (products (ensure_seed w).2))%nat)
         /\ (Exists (fun doc => forall p, featured_products_normalize doc <> Ok p) items ->
             exists e, featured_products w = (Raise e, w2))
     | Raise _ =>
         featured_products w = (Ok SAMPLE_OUT, w2)
         /\ Forall2 (fun doc p => featured_products_normalize doc = Ok p)
              (first_entries 4 SAMPLE_PRODUCTS) SAMPLE_OUT
         /\ length SAMPLE_OUT = (4 `min` length SAMPLE_PRODUCTS)%nat
     end.
Proof.
  intros Hq. split.
  - rewrite <- (get_documents_trace "product" ∅ 4), Hq. reflexivity.
  - destruct r as [items|e].
    + destruct (get_documents_inv _ _ _ _ _ _ Hq) as (d & Hdb & Hitems).
      rewrite filter_no_filter in Hitems.
      assert (Hp : products (ensure_seed w).2 = collection d "product").
      { unfold products. now rewrite Hdb. }
      rewrite Hp. split; [exact Hitems|].
      assert (Hlen : length items = (4 `min` length (collection d "product"))%nat).
      { rewrite Hitems. apply length_take. }
      split; [exact Hlen|]. split.
      * intros out Hout. rewrite (featured_products_store _ _ _ Hq).
        rewrite (list_products_loop_all _ _ Hout []). split; [reflexivity|].
        rewrite <- Hlen. symmetry. apply (Forall2_length _ _ _ Hout).
      * intros Hbad. rewrite (featured_products_store _ _ _ Hq).
        destruct (list_products_loop_raise _ Hbad []) as [e He].
        exists e. now rewrite He.
    + split; [apply (featured_products_fallback _ _ _ Hq)|].
      split; [apply sample_normalized|reflexivity].
Qed.

End StoreReader.

(** A store that answers and holds two products. *)
Lemma featured_products_min_4_witness :
  get_documents "product" ∅ 4 (ensure_seed (shop [stored_runner; stored_runner])).2
  = (Ok [stored_runner; stored_runner],
     (get_documents "product" ∅ 4
        (ensure_seed (shop [stored_runner; stored_runner])).2).2)
  /\ exists out,
       featured_products (H := bare_text) (shop [stored_runner; stored_runner])
       = (Ok out,
          (get_documents "product" ∅ 4
             (ensure_seed (shop [stored_runner; stored_runner])).2).2)
       /\ length out = 2%nat.
Proof.
  split; [reflexivity|].
  destruct (featured_products_min_4 (H := bare_text)
              (shop [stored_runner; stored_runner]) _
              (Ok [stored_runner; stored_runner]) eq_refl)
    as (_ & _ & _ & Hout & _).
  eexists. split.
  - apply Hout. repeat constructor; vm_compute; reflexivity.
  - reflexivity.
Defined.

(** C5 as stated fails: a store that answers and holds one document,
    stored without a title, makes [featured_products] raise instead of
    returning [min 4 1 = 1] product. *)
Lemma featured_products_counterexample :
  faults (shop [untitled]) = []
  /\ products (ensure_seed (shop [untitled])).2 = [untitled]
  /\ (get_documents "product" ∅ 4 (ensure_seed (shop [untitled])).2).1
     = Ok [untitled]
  /\ (featured_products (H := bare_text) (shop [untitled])).1
     = Raise validation_error.
Proof.
  split; [reflexivity|]. split; [reflexivity|]. split; [reflexivity|].
  vm_compute. reflexivity.
Qed.

Section Listing.
Context `{Text}.

(** A document whose price coerces to a float below zero is refused by
    the model. *)
Lemma negative_price_refused (doc : document) (f : float) :
  py_float (dict_get_or doc "price" (VInt 0)) = Ok f ->
  (f <? 0)%float = true ->
  list_products_normalize doc = Raise validation_error.
Proof.
  intros Hf Hneg. unfold list_products_normalize, list_products_obj.
  rewrite Hf. simpl. unfold new_ProductOut. simpl.
  assert (Hge : as_ge0 f = None).
  { unfold as_ge0. destruct (0 <=? f)%float eqn:Hle; [|reflexivity].
    apply ge0_not_negative in Hle. congruence. }
  rewrite Hge.
  destruct (as_str (dict_get doc "title")),
           (as_opt_str (dict_get doc "description")); reflexivity.
Qed.

Lemma normalize_price (doc : document) (p : ProductOut) :
  list_products_normalize doc = Ok p ->
  py_float (dict_get_or doc "price" (VInt 0)) = Ok (price p)
  /\ (0 <=? price p)%float = true.
Proof.
  unfold list_products_normalize, list_products_obj.
  destruct (py_float (dict_get_or doc "price" (VInt 0))) as [f|e];
    simpl; [|discriminate].
  intros Hp. apply new_ProductOut_inv in Hp. simpl in Hp.
  destruct Hp as (_ & _ & _ & Hpr & Hge & _). rewrite <- Hpr. now split.
Qed.

(** What [list_products] normalizes: at most [limit] documents of the
    collection that match the filter, or the slice of the sample. *)
Lemma list_products_run (limit : Z) (cat : option string) (w : World) :
  exists items w2,
    list_products limit cat w = (list_products_loop items [], w2)
    /\ ((exists d, db (ensure_seed w).2 = Some d
                   /\ items = take (Z.to_nat limit)
                                (List.filter (matches (filter_dict_of cat))
                                   (collection d "product")))
        \/ items = slice_to limit SAMPLE_PRODUCTS).
Proof.
  destruct (get_documents "product" (filter_dict_of cat) limit (ensure_seed w).2)
    as [[items|e] w2] eqn:Hq.
  - exists items, w2. split; [now apply list_products_store|].
    left. apply (get_documents_inv _ _ _ _ _ _ Hq).
  - exists (slice_to limit SAMPLE_PRODUCTS), w2.
    split; [now apply (list_products_fallback _ _ _ _ e)|]. now right.
Qed.

(** C6: [list_products] with its default arguments returns at most 20
    products, each with a price of at least zero; the products returned
    are those of the documents read, none of which has a price that
    coerces below zero, since such a document is refused. *)
Theorem list_products_default (w w' : World) (out : list ProductOut) :
  list_products 20 None w = (Ok out, w') ->
  (length out <= 20)%nat
  /\ Forall (fun p => (0 <=? price p)%float = true) out
  /\ (exists items,
        Forall2 (fun doc p => list_products_normalize doc = Ok p) items out
        /\ Forall (fun doc => forall f,
                     py_float (dict_get_or doc "price" (VInt 0)) = Ok f ->
                     (f <? 0)%float = false) items)
  /\ (forall doc f,
        py_float (dict_get_or doc "price" (VInt 0)) = Ok f ->
        (f <? 0)%float = true ->
        list_products_normalize doc = Raise validation_error).
Proof.
  intros Hrun.
  destruct (list_products_run 20 None w) as (items & w2 & Hl & Hsrc).
  rewrite Hrun in Hl. injection Hl as Hl _. symmetry in Hl.
  destruct (list_products_loop_inv _ _ _ Hl) as (ps & -> & Hps).
  simpl. assert (Hlen : (length items <= 20)%nat).
  { destruct Hsrc as [(d & _ & ->)| ->].
    - rewrite length_take. lia.
    - apply (slice_to_length 20). lia. }
  split; [rewrite <- (Forall2_length _ _ _ Hps); exact Hlen|].
  split; [|split].
  - clear - Hps. induction Hps as [|doc p items ps Hp _ IH]; constructor.
    + apply (normalize_price _ _ Hp).
    + exact IH.
  - exists items. split; [exact Hps|].
    clear - Hps. induction Hps as [|doc p items ps Hp _ IH]; constructor.
    + intros f Hf. destruct (normalize_price _ _ Hp) as (Hf' & Hge).
      rewrite Hf in Hf'. injection Hf' as ->. now apply ge0_not_negative.
    + exact IH.
  - apply negative_price_refused.
Qed.

(** C7: the filter [list_products] hands to the store binds the
    category key exactly when the argument is a non-empty string; and
    when the store answers a query for a category such as ["running"],
    every product returned has that category. *)
Theorem list_products_by_category (limit : Z) (cat : option string) (w : World) :
  (forall k v,
     filter_dict_of cat !! k = Some v
     <-> k = "category" /\ exists c, cat = Some c /\ c <> "" /\ v = VStr c)
  /\ last (trace (list_products limit cat w).2)
     = Some (GetDocuments "product" (filter_dict_of cat) limit)
  /\ (forall c items w2 out w',
        cat = Some c -> c <> "" ->
        get_documents "product" (filter_dict_of cat) limit (ensure_seed w).2
          = (Ok items, w2) ->
        list_products limit cat w = (Ok out, w') ->
        Forall (fun p => category p = c) out).
Proof.
  split; [apply filter_dict_of_lookup|]. split.
  - pose proof (get_documents_trace "product" (filter_dict_of cat) limit
                  (ensure_seed w).2) as Htr.
    destruct (get_documents "product" (filter_dict_of cat) limit (ensure_seed w).2)
      as [[items|e] w2] eqn:Hq; cbn [snd] in Htr.
    + rewrite (list_products_store _ _ _ _ _ Hq). cbn [snd].
      rewrite Htr. apply last_snoc.
    + rewrite (list_products_fallback _ _ _ _ _ Hq). cbn [snd].
      rewrite Htr. apply last_snoc.
  - intros c items w2 out w' -> Hc Hq Hrun.
    rewrite (list_products_store _ _ _ _ _ Hq) in Hrun.
    injection Hrun as Hl _.
    destruct (list_products_loop_inv _ _ _ Hl) as (ps & -> & Hps). simpl.
    destruct (get_documents_inv _ _ _ _ _ _ Hq) as (d & _ & Hitems).
    assert (Hall : Forall (fun doc => doc !! "category" = Some (VStr c)) items).
    { rewrite Hitems. apply Forall_take. apply List.Forall_forall.
      intros doc Hin. apply List.filter_In in Hin as [_ Hm].
      now apply matches_category. }
    clear - Hps Hall. induction Hps as [|doc p items ps Hp _ IH]; [constructor|].
    apply Forall_cons in Hall as [Hdoc Hall]. constructor; [|now apply IH].
    apply list_products_normalize_inv in Hp.
    destruct Hp as [_ _ _ Hcat _ _ _ _]. rewrite Hdoc in Hcat.
    now injection Hcat as <-.
Qed.

End Listing.

(** A store that holds one product, read with the default arguments. *)
Lemma list_products_default_witness :
  list_products (H := bare_text) 20 None (shop [stored_runner])
  = (Ok [runner_out], (list_products (H := bare_text) 20 None (shop [stored_runner])).2)
  /\ (length [runner_out] <= 20)%nat
  /\ Forall (fun p => (0 <=? price p)%float = true) [runner_out].
Proof.
  split; [reflexivity|].
  destruct (list_products_default (H := bare_text) (shop [stored_runner]) _
              [runner_out] eq_refl) as (Hlen & Hprice & _).
  split; [exact Hlen|exact Hprice].
Defined.

(** A store that holds a running shoe and a trail shoe, asked for the
    running shoes. *)
Lemma list_products_by_category_witness :
  get_documents "product" (filter_dict_of (Some "running")) 20
    (ensure_seed (shop [stored_runner; stored_trail])).2
  = (Ok [stored_runner],
     (get_documents "product" (filter_dict_of (Some "running")) 20
        (ensure_seed (shop [stored_runner; stored_trail])).2).2)
  /\ list_products (H := bare_text) 20 (Some "running")
       (shop [stored_runner; stored_trail])
     = (Ok [runner_out],
        (list_products (H := bare_text) 20 (Some "running")
           (shop [stored_runner; stored_trail])).2)
  /\ Forall (fun p => category p = "running") [runner_out].
Proof.
  split; [reflexivity|]. split; [reflexivity|].
  destruct (list_products_by_category (H := bare_text) 20 (Some "running")
              (shop [stored_runner; stored_trail])) as (_ & _ & Hcat).
  apply (Hcat "running" [stored_runner]
           (get_documents "product" (filter_dict_of (Some "running")) 20
              (ensure_seed (shop [stored_runner; stored_trail])).2).2
           [runner_out]
           (list_products (H := bare_text) 20 (Some "running")
              (shop [stored_runner; stored_trail])).2
           eq_refl);
    [discriminate|reflexivity|reflexivity].
Defined.

(** *** The diagnostic endpoint *)

Section Outcomes.
Context {S : Type}.

Lemma wp_ret {A} (a : A) (Q : A -> S -> Prop) E (s : S) :
  Q a s -> wp (ret a) Q E s.
Proof. intros HQ. exact HQ. Qed.

Lemma wp_gets {A} (f : S -> A) (Q : A -> S -> Prop) E (s : S) :
  Q (f s) s -> wp (gets f) Q E s.
Proof. intros HQ. exact HQ. Qed.

Lemma wp_modify (f : S -> S) (Q : unit -> S -> Prop) E (s : S) :
  Q tt (f s) -> wp (modify f) Q E s.
Proof. intros HQ. exact HQ. Qed.

Lemma wp_bind {A B} (m : M S A) (k : A -> M S B) (Q : B -> S -> Prop) E (s : S) :
  wp m (fun a s' => wp (k a) Q E s') E s -> wp (bind m k) Q E s.
Proof.
  unfold wp, bind. destruct (m s) as [[a|e] s']; intros HQ; exact HQ.
Qed.

Lemma wp_try {A} (body : M S A) (h : exn -> M S A) (Q : A -> S -> Prop) E (s : S) :
  wp body Q (fun e s' => wp (h e) Q E s') s -> wp (try_except body h) Q E s.
Proof.
  unfold wp, try_except. destruct (body s) as [[a|e] s']; intros HQ; exact HQ.
Qed.

(** Whatever a computation on the state does, the local is untouched. *)
Lemma wp_on_snd {L A} (m : M S A) (Q : A -> L * S -> Prop) E (l : L) (s : S) :
  (forall a s', Q a (l, s')) -> (forall e s', E e (l, s')) ->
  wp (on_snd m) Q E (l, s).
Proof.
  intros HQ HE. unfold wp, on_snd. simpl.
  destruct (m s) as [[a|e] s']; [apply HQ|apply HE].
Qed.

Lemma wp_with_local {L A} (l0 : L) (m : M (L * S) A) (Q : A -> S -> Prop) E (s : S) :
  wp m (fun a ls => Q a ls.2) (fun e ls => E e ls.2) (l0, s) ->
  wp (with_local l0 m) Q E s.
Proof.
  unfold wp, with_local. destruct (m (l0, s)) as [[a|e] ls]; intros HQ; exact HQ.
Qed.

Lemma wp_returns {A} (m : M S A) (Q : A -> S -> Prop) (s : S) :
  wp m Q (fun _ _ => False) s -> exists a s', m s = (Ok a, s') /\ Q a s'.
Proof.
  unfold wp. destruct (m s) as [[a|e] s']; [eauto|contradiction].
Qed.

End Outcomes.

Lemma wp_set_item (k : string) (v : pyval) Q E (response : document) (w : World) :
  Q tt (<[k := v]> response, w) -> wp (set_item k v) Q E (response, w).
Proof. intros HQ. exact HQ. Qed.

Lemma wp_on_snd_gets {S L A} (f : S -> A) (Q : A -> L * S -> Prop) E
    (l : L) (s : S) :
  Q (f s) (l, s) -> wp (on_snd (gets f)) Q E (l, s).
Proof. intros HQ. exact HQ. Qed.

Lemma status_entry_str (k s : string) :
  k <> "collections" -> status_entry k (VStr s).
Proof.
  intros Hk. unfold status_entry.
  destruct (String.eqb_spec k "collections"); [contradiction|]. now exists s.
Qed.

Lemma status_entry_names (names : list string) :
  (length names <= 10)%nat ->
  status_entry "collections" (VList (VStr <$> names)).
Proof. intros Hlen. now exists names. Qed.

(** Walks the inserts a response was built with, looking for the key
    of [H : response !! k = Some v]; the entry found there is a status
    entry. *)
Ltac find_key H :=
  repeat (first
    [ rewrite lookup_empty in H; discriminate H
    | rewrite lookup_insert in H;
      destruct (decide _) as [?|?] in H;
      [ first
          [ congruence
          | subst; injection H as <-;
            first
              [ apply status_entry_str; discriminate
              | apply (status_entry_names []); simpl; lia
              | apply status_entry_names, (slice_to_length 10); lia ] ]
      | ] ]).

Ltac status_solve :=
  split;
  [ let k := fresh "k" in
    let v := fresh "v" in
    let Hk := fresh "Hk" in
    intros k v Hk; cbn [list_to_map foldr curry fst snd] in Hk; find_key Hk
  | cbn [list_to_map foldr curry fst snd];
    rewrite !dom_insert_L, dom_empty_L; set_solver ].

Ltac wp_step :=
  cbv beta;
  lazymatch goal with
  | |- wp (with_local _ _) _ _ _ => apply wp_with_local
  | |- wp (bind _ _) _ _ _ => apply wp_bind
  | |- wp (try_except _ _) _ _ _ => apply wp_try
  | |- wp (set_item _ _) _ _ _ => apply wp_set_item
  | |- wp (on_snd (gets _)) _ _ _ => apply wp_on_snd_gets
  | |- wp (on_snd (getenv _)) _ _ _ => unfold getenv; apply wp_on_snd_gets
  | |- wp (on_snd list_collection_names) _ _ _ => apply wp_on_snd; intros ? ?
  | |- wp (gets _) _ _ _ => apply wp_gets
  | |- wp (ret _) _ _ _ => apply wp_ret
  | |- wp (match ?a with _ => _ end) _ _ _ => destruct a
  end.

(** Every run of [test_database] returns a status object. *)
Lemma test_database_outcome (w : World) :
  wp test_database (fun response _ => status_object response)
     (fun _ _ => False) w.
Proof.
  unfold test_database. repeat wp_step; cbn [fst]; status_solve.
Qed.

(** C8: the diagnostic handler never fails.  Whatever the store does
    (handle unset, answering, or raising), [test_database] returns, and
    what it returns holds exactly its six keys: the collection names
    under ["collections"], at most ten of them, and a status string
    under each other key. *)
Theorem test_database_never_fails (w : World) :
  exists response w',
    test_database w = (Ok response, w') /\ status_object response.
Proof. apply wp_returns, test_database_outcome. Qed.

(** *** Some runs *)

(** The store fails the count: the guard returns, having made one call. *)
Example ensure_seed_count_fails :
  (ensure_seed (set_faults [Some "down"] (shop []))).1 = Ok tt
  /\ trace (ensure_seed (set_faults [Some "down"] (shop []))).2
     = [CountDocuments "product"].
Proof. split; reflexivity. Qed.

(** The store fails the second insert: the guard returns, the first
    sample document stays inserted and the last two are not tried. *)
Example ensure_seed_insert_fails :
  (ensure_seed (set_faults [None; None; Some "down"] (shop []))).1 = Ok tt
  /\ length (trace (ensure_seed (set_faults [None; None; Some "down"] (shop []))).2)
     = 3%nat
  /\ titles (products (ensure_seed (set_faults [None; None; Some "down"] (shop []))).2)
     = {[ "Air Nova Runner" ]}.
Proof.
  split; [reflexivity|]. split; [reflexivity|].
  unfold titles.
  replace (omap title_of
             (products (ensure_seed (set_faults [None; None; Some "down"] (shop []))).2))
    with ["Air Nova Runner"] by (vm_compute; reflexivity).
  set_solver.
Qed.

(** The three reports of [test_database] on the store. *)
Example test_database_unset :
  match (test_database unconfigured).1 with
  | Ok response => response !! "database"
  | Raise _ => None
  end = Some (VStr "⚠️  Available but not initialized").
Proof. vm_compute. reflexivity. Qed.

Example test_database_working :
  match (test_database (shop [stored_runner])).1 with
  | Ok response => (response !! "database", response !! "collections")
  | Raise _ => (None, None)
  end = (Some (VStr "✅ Connected & Working"), Some (VList [VStr "product"])).
Proof. vm_compute. reflexivity. Qed.

Example test_database_store_error :
  match (test_database (set_faults [Some "timed out"] (shop [stored_runner]))).1 with
  | Ok response => (response !! "database", response !! "collections")
  | Raise _ => (None, None)
  end = (Some (VStr "⚠️  Connected but Error: timed out"), Some (VList [])).
Proof. vm_compute. reflexivity. Qed.

(** A price that coerces below zero fails the whole request. *)
Example list_products_negative_price :
  (list_products (H := bare_text) 20 None
     (shop [stored_runner; <["price" := VInt (-5)]> stored_trail])).1
  = Raise validation_error.
Proof. vm_compute. reflexivity. Qed.

(** *** Which documents normalize *)

Lemma mapM_as_str_strs (l : list string) : mapM as_str (VStr <$> l) = Some l.
Proof.
  induction l as [|s l IH]; [reflexivity|].
  cbn. rewrite IH. reflexivity.
Qed.

Lemma as_opt_str_optional (it : document) (k : string) :
  optional_str it k <-> exists o, as_opt_str (dict_get it k) = Some o.
Proof.
  unfold optional_str, dict_get. split.
  - intros [->|[->|(s & ->)]]; simpl; eauto.
  - intros (o & Ho). destruct (it !! k) as [v|]; [|now left].
    right. destruct v; simpl in Ho; try discriminate; [now left|right; eauto].
Qed.

Section Acceptance.
Context `{Text}.

Lemma normalizes_iff_acceptable (it : document) :
  (exists p, list_products_normalize it = Ok p) <-> acceptable it.
Proof.
  split.
  - intros (p & Hp). pose proof (normalize_price _ _ Hp) as (Hf & Hge).
    unfold list_products_normalize, list_products_obj in Hp.
    rewrite Hf in Hp. simpl in Hp. apply new_ProductOut_inv in Hp. simpl in Hp.
    destruct Hp as (_ & Ht & Hd & _ & _ & Hc & _ & Hi & Hb & Hcs).
    split.
    + unfold dict_get in Ht. destruct (it !! "title") as [v|]; simpl in Ht;
        [subst v; eauto|discriminate].
    + eauto.
    + unfold dict_get_or in Hc. destruct (it !! "category") as [v|]; simpl in Hc;
        [subst v; eauto|now left].
    + apply as_opt_str_optional. rewrite Hd. destruct (description p); simpl; eauto.
    + apply as_opt_str_optional. rewrite Hi. destruct (image p); simpl; eauto.
    + apply as_opt_str_optional. rewrite Hb. destruct (brand p); simpl; eauto.
    + unfold dict_get in Hcs. destruct (it !! "colors") as [v|]; [|now left].
      simpl in Hcs. subst v. right.
      destruct (colors p) as [l|]; simpl; [right; eauto|now left].
  - intros [(t & Ht) (f & Hf & Hge) Hc Hd Hi Hb Hcs].
    apply as_opt_str_optional in Hd as (d & Hd).
    apply as_opt_str_optional in Hi as (i & Hi).
    apply as_opt_str_optional in Hb as (b & Hb).
    assert (exists c, as_str (dict_get_or it "category" (VStr "shoes")) = Some c)
      as (c & Hc').
    { unfold dict_get_or. destruct Hc as [->|(s & ->)]; simpl; eauto. }
    assert (exists cs, as_opt_str_list (dict_get it "colors") = Some cs)
      as (cs & Hcs').
    { unfold dict_get. destruct Hcs as [->|[->|(l & ->)]]; simpl; eauto.
      rewrite mapM_as_str_strs. simpl. eauto. }
    unfold list_products_normalize, list_products_obj.
    rewrite Hf. simpl. unfold new_ProductOut. simpl.
    unfold dict_get at 1. rewrite Ht. simpl.
    rewrite Hd, Hc', Hi, Hb, Hcs'. unfold as_ge0. rewrite Hge. eauto.
Qed.

Lemma list_products_loop_first_failure (good rest : list document)
    (ps : list ProductOut) (bad : document) (e : exn) :
  Forall2 (fun doc p => list_products_normalize doc = Ok p) good ps ->
  list_products_normalize bad = Raise e ->
  forall acc, list_products_loop (good ++ bad :: rest) acc = Raise e.
Proof.
  intros Hgood Hbad.
  induction Hgood as [|doc p good ps Hp _ IH]; intros acc; simpl.
  - now rewrite Hbad.
  - rewrite Hp. simpl. apply IH.
Qed.

(** X1: a document normalizes exactly when its title is a string, its
    price (or 0 when missing) coerces to a float that is at least zero,
    its category is missing or a string, its description, image and
    brand are each missing, [None] or a string, and its colors are
    missing, [None] or a list of strings. *)
Theorem normalize_accepts (it : document) :
  (exists p, list_products_normalize it = Ok p) <-> acceptable it.
Proof. apply normalizes_iff_acceptable. Qed.

(** X2: the request fails on the first document that does not
    normalize, with that document's exception: the products of the
    documents before it are dropped and the documents after it are not
    looked at. *)
Theorem first_failure_fails_request (limit : Z) (cat : option string)
    (w w2 : World) (good rest : list document) (ps : list ProductOut)
    (bad : document) (e : exn) :
  get_documents "product" (filter_dict_of cat) limit (ensure_seed w).2
    = (Ok (good ++ bad :: rest)%list, w2) ->
  Forall2 (fun doc p => list_products_normalize doc = Ok p) good ps ->
  list_products_normalize bad = Raise e ->
  list_products limit cat w = (Raise e, w2).
Proof.
  intros Hq Hgood Hbad. rewrite (list_products_store _ _ _ _ _ Hq).
  now rewrite (list_products_loop_first_failure _ _ _ _ _ Hgood Hbad).
Qed.

(** X3: a key that holds [None] is not a missing key.  A price of
    [None] raises [TypeError] where a missing price is [0.0]; a category
    of [None] is refused where a missing category is ["shoes"]; a stock
    flag of [None] is false where a missing one is true. *)
Theorem none_is_not_missing (it : document) :
  (it !! "price" = Some VNone ->
   list_products_normalize it
   = Raise (Exn TypeError "float() argument must be a string or a real number"))
  /\ (it !! "category" = Some VNone ->
      forall p, list_products_normalize it <> Ok p)
  /\ (it !! "in_stock" = Some VNone ->
      forall p, list_products_normalize it = Ok p -> in_stock p = false).
Proof.
  split; [|split].
  - intros Hk. unfold list_products_normalize, list_products_obj, dict_get_or.
    rewrite Hk. reflexivity.
  - intros Hk p Hp.
    assert (Ha : acceptable it) by (apply normalizes_iff_acceptable; eauto).
    destruct (acc_category _ Ha) as [Hc|(s & Hc)]; congruence.
  - intros Hk p Hp. apply list_products_normalize_inv in Hp.
    pose proof (norm_in_stock _ _ Hp) as Hs. now rewrite Hk in Hs.
Qed.

(** X4: the normalization reads its nine keys and no other: binding or
    unbinding any other key of a document changes nothing. *)
Theorem other_keys_ignored (it : document) (k : string) (v : pyval) :
  (k ∉ read_keys) ->
  list_products_normalize (<[k := v]> it) = list_products_normalize it
  /\ list_products_normalize (delete k it) = list_products_normalize it.
Proof.
  intros Hk.
  assert (HIn : ~ In k read_keys) by (now rewrite <- list_elem_of_In).
  unfold list_products_normalize, list_products_obj, dict_get, dict_get_or.
  split.
  - rewrite !lookup_insert_ne by (intros ->; apply HIn; simpl; tauto).
    reflexivity.
  - rewrite !lookup_delete_ne by (intros ->; apply HIn; simpl; tauto).
    reflexivity.
Qed.

(** X13: a listing request whose store query returns succeeds exactly
    when every document read is one the normalization accepts. *)
Theorem list_products_returns_iff (limit : Z) (cat : option string)
    (w w2 : World) (items : list document) :
  get_documents "product" (filter_dict_of cat) limit (ensure_seed w).2
    = (Ok items, w2) ->
  (exists out, list_products limit cat w = (Ok out, w2))
  <-> Forall acceptable items.
Proof.
  intros Hq. rewrite (list_products_store _ _ _ _ _ Hq). split.
  - intros (out & Hrun). injection Hrun as Hl.
    destruct (list_products_loop_inv _ _ _ Hl) as (ps & _ & Hps).
    clear - Hps. induction Hps as [|doc p items ps Hp _ IH]; constructor.
    + apply normalizes_iff_acceptable. eauto.
    + exact IH.
  - intros Hall.
    assert (exists ps, Forall2 (fun doc p => list_products_normalize doc = Ok p)
                         items ps) as (ps & Hps).
    { clear - Hall. induction Hall as [|doc items Hdoc _ (ps & IH)].
      - exists []. constructor.
      - apply normalizes_iff_acceptable in Hdoc as (p & Hp).
        exists (p :: ps). now constructor. }
    exists ps. now rewrite (list_products_loop_all _ _ Hps []).
Qed.

End Acceptance.

(** A good document, one without a title, and one that is not reached. *)
Lemma first_failure_fails_request_witness :
  get_documents "product" (filter_dict_of None) 20
    (ensure_seed (shop [stored_runner; untitled; stored_trail])).2
  = (Ok ([stored_runner] ++ untitled :: [stored_trail])%list,
     (get_documents "product" (filter_dict_of None) 20
        (ensure_seed (shop [stored_runner; untitled; stored_trail])).2).2)
  /\ Forall2 (fun doc p => list_products_normalize (H := bare_text) doc = Ok p)
       [stored_runner] [runner_out]
  /\ list_products_normalize (H := bare_text) untitled = Raise validation_error
  /\ list_products (H := bare_text) 20 None
       (shop [stored_runner; untitled; stored_trail])
     = (Raise validation_error,
        (get_documents "product" (filter_dict_of None) 20
           (ensure_seed (shop [stored_runner; untitled; stored_trail])).2).2).
Proof.
  split; [reflexivity|].
  split; [repeat constructor; vm_compute; reflexivity|].
  split; [vm_compute; reflexivity|].
  apply (first_failure_fails_request (H := bare_text) 20 None _ _
           [stored_runner] [stored_trail] [runner_out] untitled validation_error).
  - reflexivity.
  - repeat constructor; vm_compute; reflexivity.
  - vm_compute. reflexivity.
Defined.

(** A timestamp the store keeps beside the product's fields. *)
Lemma other_keys_ignored_witness :
  ("created_at" ∉ read_keys)
  /\ list_products_normalize (H := bare_text)
       (<["created_at" := VStr "2024-03-12T09:30:00Z"]> stored_runner)
     = list_products_normalize (H := bare_text) stored_runner
  /\ list_products_normalize (H := bare_text) (delete "created_at" stored_runner)
     = list_products_normalize (H := bare_text) stored_runner.
Proof.
  assert (Hk : "created_at" ∉ read_keys).
  { rewrite list_elem_of_In. simpl. intros Hin.
    repeat (destruct Hin as [Hin|Hin]; [discriminate Hin|]). exact Hin. }
  split; [exact Hk|].
  apply (other_keys_ignored (H := bare_text) stored_runner "created_at" _ Hk).
Defined.

(** A store that answers with one product the normalization accepts. *)
Lemma list_products_returns_iff_witness :
  get_documents "product" (filter_dict_of None) 20 (ensure_seed (shop [stored_runner])).2
  = (Ok [stored_runner],
     (get_documents "product" (filter_dict_of None) 20
        (ensure_seed (shop [stored_runner])).2).2)
  /\ ((exists out,
         list_products (H := bare_text) 20 None (shop [stored_runner])
         = (Ok out,
            (get_documents "product" (filter_dict_of None) 20
               (ensure_seed (shop [stored_runner])).2).2))
      <-> Forall (acceptable (H := bare_text)) [stored_runner]).
Proof.
  split; [reflexivity|].
  apply (list_products_returns_iff (H := bare_text) 20 None (shop [stored_runner]) _
           [stored_runner]).
  reflexivity.
Defined.

(** *** What the listing returns *)

Lemma take_length_take {A} (m : nat) (l : list A) :
  take (length (take m l)) l = take m l.
Proof.
  rewrite length_take. destruct (Nat.le_ge_cases m (length l)) as [Hle|Hge].
  - now rewrite Nat.min_l.
  - rewrite Nat.min_r by assumption. now rewrite !take_ge by lia.
Qed.

Section Returned.
Context `{Text}.

Lemma featured_products_eq_list (w : World) :
  featured_products w = list_products 4 None w.
Proof.
  unfold featured_products, list_products.
  change (list_products_items 4 None) with featured_products_items.
  unfold bind. destruct (featured_products_items w) as [[items|e] w2];
    [|reflexivity].
  unfold lift. now rewrite featured_products_loop_eq.
Qed.

(** X5: [featured_products] is [list_products] with limit 4 and no
    category, in every world: the same store calls, the same result or
    the same exception; and a blank category is no category. *)
Theorem featured_is_list_4 (w : World) :
  featured_products w = list_products 4 None w
  /\ forall limit, list_products limit (Some "") w = list_products limit None w.
Proof.
  split; [apply featured_products_eq_list|reflexivity].
Qed.

Lemma normalize_id_not_blank (it : document) (p : ProductOut) :
  list_products_normalize it = Ok p -> id p <> Some "".
Proof.
  intros Hp. apply list_products_normalize_inv in Hp.
  pose proof (norm_id _ _ Hp) as Hid.
  destruct (it !! "_id") as [v|]; [|congruence].
  destruct (String.eqb_spec (py_str v) "") as [?|Hne]; congruence.
Qed.

Lemma loop_products_invariant (items : list document) (out : list ProductOut) :
  list_products_loop items [] = Ok out ->
  Forall (fun p => (0 <=? price p)%float = true /\ id p <> Some "") out.
Proof.
  intros Hl. destruct (list_products_loop_inv _ _ _ Hl) as (ps & -> & Hps).
  simpl. clear Hl. induction Hps as [|doc p items ps Hp _ IH]; constructor.
  - split; [apply (normalize_price _ _ Hp)|apply (normalize_id_not_blank _ _ Hp)].
  - exact IH.
Qed.

(** X6: whatever the limit, the category and the world, every product
    [list_products] or [featured_products] returns has a price of at
    least zero and an [id] that is absent or a non-empty string. *)
Theorem returned_products_invariant (limit : Z) (cat : option string)
    (w w' : World) (out : list ProductOut) :
  list_products limit cat w = (Ok out, w') \/ featured_products w = (Ok out, w') ->
  Forall (fun p => (0 <=? price p)%float = true /\ id p <> Some "") out.
Proof.
  intros [Hrun|Hrun].
  - destruct (list_products_run limit cat w) as (items & w2 & Hl & _).
    rewrite Hrun in Hl. injection Hl as Hl _.
    now apply (loop_products_invariant items).
  - destruct (list_products_run 4 None w) as (items & w2 & Hl & _).
    rewrite featured_products_eq_list, Hl in Hrun. injection Hrun as Hl' _.
    now apply (loop_products_invariant items).
Qed.

(** X7: the fallback never fails.  When the store query raises, for
    every limit (positive, zero or negative) and every category
    [list_products] returns a prefix of the sample products, at most
    four of them, none with an [id]. *)
Theorem fallback_returns_prefix (limit : Z) (cat : option string)
    (w w2 : World) (e : exn) :
  get_documents "product" (filter_dict_of cat) limit (ensure_seed w).2
    = (Raise e, w2) ->
  exists n, (n <= 4)%nat
            /\ list_products limit cat w = (Ok (take n SAMPLE_OUT), w2)
            /\ Forall (fun p => id p = None) (take n SAMPLE_OUT).
Proof.
  intros Hq. rewrite (list_products_fallback _ _ _ _ _ Hq).
  exists (length (slice_to limit SAMPLE_PRODUCTS)).
  assert (Hs : slice_to limit SAMPLE_PRODUCTS
               = take (length (slice_to limit SAMPLE_PRODUCTS)) SAMPLE_PRODUCTS).
  { unfold slice_to. now rewrite take_length_take. }
  split; [|split].
  - unfold slice_to. rewrite length_take. change (length SAMPLE_PRODUCTS) with 4%nat.
    lia.
  - rewrite Hs at 1. now rewrite sample_prefix_loop.
  - apply Forall_take. unfold SAMPLE_OUT. repeat constructor.
Qed.

End Returned.

(** A store whose products are read with limit 20. *)
Lemma returned_products_invariant_witness :
  (list_products (H := bare_text) 20 None (shop [stored_runner])
   = (Ok [runner_out], (list_products (H := bare_text) 20 None (shop [stored_runner])).2)
   \/ featured_products (H := bare_text) (shop [stored_runner])
     = (Ok [runner_out], (list_products (H := bare_text) 20 None (shop [stored_runner])).2))
  /\ Forall (fun p => (0 <=? price p)%float = true /\ id p <> Some "") [runner_out].
Proof.
  assert (Hrun : list_products (H := bare_text) 20 None (shop [stored_runner])
                 = (Ok [runner_out],
                    (list_products (H := bare_text) 20 None (shop [stored_runner])).2))
    by reflexivity.
  split; [left; exact Hrun|].
  apply (returned_products_invariant (H := bare_text) 20 None _ _ _ (or_introl Hrun)).
Defined.

(** Limit -3 and a category, with no store configured: one product. *)
Lemma fallback_returns_prefix_witness :
  get_documents "product" (filter_dict_of (Some "hiking")) (-3)
    (ensure_seed unconfigured).2
  = (Raise unavailable,
     log (GetDocuments "product" (filter_dict_of (Some "hiking")) (-3)) unconfigured)
  /\ exists n, (n <= 4)%nat
       /\ list_products (H := bare_text) (-3) (Some "hiking") unconfigured
          = (Ok (take n SAMPLE_OUT),
             log (GetDocuments "product" (filter_dict_of (Some "hiking")) (-3))
               unconfigured)
       /\ Forall (fun p => id p = None) (take n SAMPLE_OUT).
Proof.
  split; [reflexivity|].
  apply (fallback_returns_prefix (H := bare_text) (-3) (Some "hiking") unconfigured _
           unavailable).
  reflexivity.
Defined.

(** *** The seed guard under any store behaviour *)

(** A store call either fails, leaving the database as it was, or runs
    its operation. *)
Lemma store_call_cases {A} (name : StoreOp) (op : Database -> A * Database)
    (w : World) (d : Database) :
  db w = Some d ->
  (exists msg fs,
     store_call name op w
     = (Raise (Exn StoreFailure msg), set_faults fs (log name w)))
  \/ (exists fs,
        store_call name op w = (Ok (op d).1, set_db (op d).2 fs (log name w))).
Proof.
  intros Hdb. unfold store_call. simpl. rewrite Hdb.
  destruct (faults w) as [|[msg|] fs].
  - right. exists []. now destruct (op d).
  - left. now exists msg, fs.
  - right. exists fs. now destruct (op d).
Qed.

Lemma collection_insert_ne (d : Database) (c c' : string) (docs : list document)
    (n : option string) (i : N) :
  c <> c' ->
  collection {| db_name := n; collections := <[c := docs]> (collections d);
                next_id := i |} c' = collection d c'.
Proof. intros Hc. unfold collection. simpl. now rewrite lookup_insert_ne. Qed.

(** Whatever the store does, the insert loop appends to the product
    collection copies of a prefix of its list, and touches nothing else. *)
Lemma seed_loop_any (ps : list document) :
  forall (w : World) (d : Database),
    db w = Some d ->
    exists d' stored n,
      db (for_each ps (fun p => create_document "product" p >> ret tt) w).2 = Some d'
      /\ collection d' "product" = (collection d "product" ++ stored)%list
      /\ delete "_id" <$> stored = delete "_id" <$> take n ps
      /\ (forall c, c <> "product" -> collection d' c = collection d c)
      /\ db_name d' = db_name d
      /\ environ (for_each ps (fun p => create_document "product" p >> ret tt) w).2
         = environ w
      /\ (length (trace (for_each ps (fun p => create_document "product" p >> ret tt) w).2)
          <= length (trace w) + length ps)%nat.
Proof.
  induction ps as [|p ps IH]; intros w d Hdb.
  - exists d, [], 0%nat. simpl. rewrite app_nil_r.
    repeat split; try assumption; try reflexivity. lia.
  - cbn [for_each].
    destruct (store_call_cases (CreateDocument "product" p)
                (fun d =>
                   (pretty (next_id d),
                    {| db_name := db_name d;
                       collections :=
                         <["product" := (collection d "product" ++
                            [<["_id" := VObjectId (pretty (next_id d))]> p])%list]>
                           (collections d);
                       next_id := N.succ (next_id d) |})) w d Hdb)
      as [(msg & fs & Hcall)|(fs & Hcall)]; cbn [fst snd] in Hcall.
    + rewrite (bind_raise _ _ _ _ _ (bind_raise _ _ _ _ _ Hcall)).
      exists d, [], 0%nat. cbn [snd]. rewrite app_nil_r. simpl.
      repeat split; try assumption; try reflexivity.
      rewrite length_app. simpl. lia.
    + rewrite (bind_ok _ _ _ _ _ (bind_ok _ _ _ _ _ Hcall)).
      match goal with
      | |- context [for_each ps _ ?w1] =>
          destruct (IH w1 _ eq_refl)
            as (d' & stored & n & Hdb' & Hdocs & Hpre & Hother & Hname & Henv & Htr)
      end.
      rewrite collection_insert in Hdocs.
      exists d', (<["_id" := VObjectId (pretty (next_id d))]> p :: stored), (S n).
      split; [exact Hdb'|]. split; [now rewrite Hdocs, <- app_assoc|].
      split; [cbn; now rewrite delete_insert_eq, Hpre|].
      split.
      { intros c Hc. rewrite (Hother c Hc). apply collection_insert_ne. congruence. }
      split; [exact Hname|]. split; [rewrite Henv; reflexivity|].
      etransitivity; [exact Htr|]. simpl. rewrite length_app. simpl. lia.
Qed.

Lemma swallow_snd {S} (body : M S unit) (s : S) :
  (try_except body (fun _ => ret tt) s).2 = (body s).2.
Proof. unfold try_except, ret. now destruct (body s) as [[[]|e] s']. Qed.

Lemma take_sample_no_id (n : nat) :
  delete "_id" <$> take n SAMPLE_PRODUCTS = take n SAMPLE_PRODUCTS.
Proof. now rewrite fmap_take, sample_has_no_id. Qed.

(** X8: the seed guard only ever appends.  In every world with a
    handle, whatever calls the store fails, [ensure_seed] leaves the
    product collection as it was followed by copies of the first [n]
    sample documents (none when the collection was not empty), leaves
    the other collections, the database name and the environment alone,
    and makes at most five store calls. *)
Theorem ensure_seed_appends (w : World) (d : Database) :
  db w = Some d ->
  exists d' stored n,
    db (ensure_seed w).2 = Some d'
    /\ collection d' "product" = (collection d "product" ++ stored)%list
    /\ delete "_id" <$> stored = take n SAMPLE_PRODUCTS
    /\ (collection d "product" <> [] -> stored = [])
    /\ (forall c, c <> "product" -> collection d' c = collection d c)
    /\ db_name d' = db_name d
    /\ environ (ensure_seed w).2 = environ w
    /\ (length (trace (ensure_seed w).2) <= length (trace w) + 5)%nat.
Proof.
  intros Hdb. rewrite (ensure_seed_set w d Hdb), swallow_snd.
  destruct (store_call_cases (CountDocuments "product")
              (fun d => (length (collection d "product"), d)) w d Hdb)
    as [(msg & fs & Hcall)|(fs & Hcall)]; cbn [fst snd] in Hcall.
  - rewrite (bind_raise _ _ _ _ _ Hcall). cbn [snd].
    exists d, [], 0%nat. rewrite app_nil_r. simpl.
    repeat split; try assumption; try reflexivity.
    rewrite length_app. simpl. lia.
  - rewrite (bind_ok _ _ _ _ _ Hcall).
    destruct (collection d "product") as [|doc docs] eqn:Hcoll; cbn [length Nat.eqb].
    + destruct (seed_loop_any SAMPLE_PRODUCTS
                  (set_db d fs (log (CountDocuments "product") w)) d eq_refl)
        as (d' & stored & n & Hdb' & Hdocs & Hpre & Hother & Hname & Henv & Htr).
      exists d', stored, n. rewrite Hcoll in Hdocs.
      split; [exact Hdb'|]. split; [exact Hdocs|].
      split; [now rewrite Hpre, take_sample_no_id|].
      split; [congruence|]. split; [exact Hother|]. split; [exact Hname|].
      split; [rewrite Henv; reflexivity|].
      etransitivity; [exact Htr|]. simpl. rewrite length_app. simpl. lia.
    + exists d, [], 0%nat. rewrite app_nil_r, Hcoll. simpl.
      repeat split; try reflexivity. rewrite length_app. simpl. lia.
Qed.

Lemma ensure_seed_nonempty (w : World) (d : Database) :
  db w = Some d -> faults w = [] -> collection d "product" <> [] ->
  ensure_seed w = (Ok tt, set_db d [] (log (CountDocuments "product") w)).
Proof.
  intros Hdb Hf Hne. rewrite (ensure_seed_set w d Hdb). apply try_ok.
  rewrite (bind_ok _ _ _ _ _ (count_documents_ok "product" w d Hdb Hf)).
  destruct (collection d "product"); [congruence|reflexivity].
Qed.

Lemma ensure_seed_from_empty (w : World) (d : Database) :
  db w = Some d -> faults w = [] -> collection d "product" = [] ->
  exists w1 d1,
    ensure_seed w = (Ok tt, w1) /\ db w1 = Some d1 /\ faults w1 = []
    /\ delete "_id" <$> collection d1 "product" = SAMPLE_PRODUCTS.
Proof.
  intros Hdb Hf Hempty.
  destruct (seed_loop SAMPLE_PRODUCTS
              (set_db d [] (log (CountDocuments "product") w)) d eq_refl eq_refl)
    as (w1 & d1 & Hrun & Hdb1 & Hf1 & Hdocs & _).
  rewrite Hempty, sample_has_no_id, app_nil_l in Hdocs.
  exists w1, d1. repeat split; try assumption.
  rewrite (ensure_seed_set w d Hdb). apply try_ok.
  rewrite (bind_ok _ _ _ _ _ (count_documents_ok "product" w d Hdb Hf)).
  rewrite Hempty. exact Hrun.
Qed.

(** X9: on a store that answers, one run of the guard settles the
    collection.  A collection that holds a document is left as it is,
    after a single count; and after any first run the collection is not
    empty, so a second run inserts nothing. *)
Theorem ensure_seed_settles (w : World) (d : Database) :
  db w = Some d -> faults w = [] ->
  products (ensure_seed w).2 <> []
  /\ (collection d "product" <> [] ->
      products (ensure_seed w).2 = collection d "product"
      /\ trace (ensure_seed w).2 = (trace w ++ [CountDocuments "product"])%list)
  /\ products (ensure_seed (ensure_seed w).2).2 = products (ensure_seed w).2.
Proof.
  intros Hdb Hf.
  assert (Hstep : forall w0 d0, db w0 = Some d0 -> faults w0 = [] ->
            collection d0 "product" <> [] ->
            products (ensure_seed w0).2 = collection d0 "product"
            /\ trace (ensure_seed w0).2 = (trace w0 ++ [CountDocuments "product"])%list).
  { intros w0 d0 Hdb0 Hf0 Hne. rewrite (ensure_seed_nonempty w0 d0 Hdb0 Hf0 Hne).
    split; reflexivity. }
  destruct (collection d "product") as [|doc docs] eqn:Hcoll.
  - destruct (ensure_seed_from_empty w d Hdb Hf Hcoll)
      as (w1 & d1 & Hrun & Hdb1 & Hf1 & Hdocs).
    rewrite Hrun. cbn [snd].
    assert (Hne : collection d1 "product" <> []).
    { intros Hnil. rewrite Hnil in Hdocs. discriminate Hdocs. }
    assert (Hp1 : products w1 = collection d1 "product").
    { unfold products. now rewrite Hdb1. }
    split; [now rewrite Hp1|]. split; [congruence|].
    rewrite Hp1. apply (Hstep w1 d1 Hdb1 Hf1 Hne).
  - assert (Hne : collection d "product" <> []) by (rewrite Hcoll; discriminate).
    rewrite (ensure_seed_nonempty w d Hdb Hf Hne). cbn [snd].
    change (products (set_db d [] (log (CountDocuments "product") w)))
      with (collection d "product").
    rewrite Hcoll. split; [discriminate|]. split; [intros _; split; reflexivity|].
    rewrite <- Hcoll.
    apply (Hstep (set_db d [] (log (CountDocuments "product") w)) d eq_refl eq_refl Hne).
Qed.

(** The guard appends: a store that fails the second insert. *)
Lemma ensure_seed_appends_witness :
  db (set_faults [None; None; Some "down"] (shop []))
  = Some {| db_name := Some "shop"; collections := {[ "product" := [] ]};
            next_id := 0 |}
  /\ exists d' stored n,
       db (ensure_seed (set_faults [None; None; Some "down"] (shop []))).2 = Some d'
       /\ collection d' "product" = ([] ++ stored)%list
       /\ delete "_id" <$> stored = take n SAMPLE_PRODUCTS
       /\ length (trace (ensure_seed (set_faults [None; None; Some "down"] (shop []))).2)
          = 3%nat.
Proof.
  split; [reflexivity|].
  destruct (ensure_seed_appends (set_faults [None; None; Some "down"] (shop [])) _ eq_refl)
    as (d' & stored & n & Hdb & Hdocs & Hpre & _).
  exists d', stored, n.
  split; [exact Hdb|]. split; [exact Hdocs|]. split; [exact Hpre|reflexivity].
Defined.

(** A store that answers and holds one product. *)
Lemma ensure_seed_settles_witness :
  db (shop [stored_runner])
  = Some {| db_name := Some "shop";
            collections := {[ "product" := [stored_runner] ]}; next_id := 0 |}
  /\ faults (shop [stored_runner]) = []
  /\ products (ensure_seed (shop [stored_runner])).2 <> []
  /\ products (ensure_seed (ensure_seed (shop [stored_runner])).2).2
     = products (ensure_seed (shop [stored_runner])).2.
Proof.
  split; [reflexivity|]. split; [reflexivity|].
  destruct (ensure_seed_settles (shop [stored_runner]) _ eq_refl eq_refl)
    as (Hne & _ & Hsame).
  split; [exact Hne|exact Hsame].
Defined.

(** *** Seeding, then listing *)

Lemma get_documents_ok (c : string) (flt : document) (limit : Z)
    (w : World) (d : Database) :
  db w = Some d -> faults w = [] ->
  get_documents c flt limit w
  = (Ok (take (Z.to_nat limit) (List.filter (matches flt) (collection d c))),
     set_db d [] (log (GetDocuments c flt limit) w)).
Proof.
  intros Hdb Hf. unfold get_documents.
  rewrite (store_call_ok _ _ w d Hdb Hf). reflexivity.
Qed.

Section RoundTrip.
Context `{Text}.

(** The identity of a document decides the [id] of its product and
    nothing else. *)
Lemma normalize_delete_id (doc : document) (q : ProductOut) :
  list_products_normalize (delete "_id" doc) = Ok q ->
  exists p, list_products_normalize doc = Ok p /\ with_id None p = q.
Proof.
  unfold list_products_normalize, list_products_obj, dict_get, dict_get_or.
  rewrite lookup_delete_eq, !lookup_delete_ne by discriminate.
  destruct (py_float (default (VInt 0) (doc !! "price"))) as [f|e];
    simpl; [|discriminate].
  unfold new_ProductOut. simpl.
  destruct (as_str (default VNone (doc !! "title"))); [|discriminate].
  destruct (as_opt_str (default VNone (doc !! "description"))); [|discriminate].
  destruct (as_ge0 f); [|discriminate].
  destruct (as_str (default (VStr "shoes") (doc !! "category"))); [|discriminate].
  destruct (as_opt_str (default VNone (doc !! "image"))); [|discriminate].
  destruct (as_opt_str (default VNone (doc !! "brand"))); [|discriminate].
  destruct (as_opt_str_list (default VNone (doc !! "colors"))); [|discriminate].
  intros [= <-]. eexists. split; reflexivity.
Qed.

Lemma normalize_all_delete_id (docs : list document) :
  forall qs,
    Forall2 (fun doc q => list_products_normalize doc = Ok q)
            (delete "_id" <$> docs) qs ->
    exists ps, Forall2 (fun doc p => list_products_normalize doc = Ok p) docs ps
               /\ with_id None <$> ps = qs.
Proof.
  induction docs as [|doc docs IH]; intros qs Hqs.
  - apply Forall2_nil_inv_l in Hqs as ->. exists []. split; constructor.
  - cbn in Hqs. apply Forall2_cons_inv_l in Hqs as (q & qs' & Hq & Hqs' & ->).
    destruct (normalize_delete_id _ _ Hq) as (p & Hp & <-).
    destruct (IH _ Hqs') as (ps & Hps & <-).
    exists (p :: ps). split; [now constructor|reflexivity].
Qed.

(** X10: what the guard seeds is what the listing returns.  On a store
    that answers and whose product collection is empty, [list_products]
    with a limit of at least 4 and no category, and [featured_products],
    return four products that are the sample products, each under an
    [id] of its own. *)
Theorem seed_then_list (limit : Z) (w : World) (d : Database) :
  db w = Some d -> faults w = [] -> collection d "product" = [] -> 4 <= limit ->
  (exists out w',
     list_products limit None w = (Ok out, w')
     /\ with_id None <$> out = SAMPLE_OUT)
  /\ (exists out w',
        featured_products w = (Ok out, w')
        /\ with_id None <$> out = SAMPLE_OUT).
Proof.
  intros Hdb Hf Hempty Hl.
  assert (Hlist : forall l, 4 <= l ->
            exists out w', list_products l None w = (Ok out, w')
                           /\ with_id None <$> out = SAMPLE_OUT).
  { intros l Hl4.
    destruct (ensure_seed_from_empty w d Hdb Hf Hempty)
      as (w1 & d1 & Hrun & Hdb1 & Hf1 & Hdocs).
    pose proof sample_normalized as Hs. rewrite <- Hdocs in Hs.
    destruct (normalize_all_delete_id _ _ Hs) as (ps & Hps & Hids).
    assert (Hq : get_documents "product" (filter_dict_of None) l (ensure_seed w).2
                 = (Ok (collection d1 "product"),
                    set_db d1 [] (log (GetDocuments "product" (filter_dict_of None) l) w1))).
    { rewrite Hrun. cbn [snd].
      rewrite (get_documents_ok _ _ _ w1 d1 Hdb1 Hf1). f_equal. f_equal.
      change (filter_dict_of None) with (∅ : document).
      rewrite filter_no_filter. apply take_ge.
      rewrite <- (length_fmap (delete "_id")), Hdocs.
      change (length SAMPLE_PRODUCTS) with 4%nat. lia. }
    exists ps, (set_db d1 [] (log (GetDocuments "product" (filter_dict_of None) l) w1)).
    split; [|exact Hids].
    rewrite (list_products_store _ _ _ _ _ Hq).
    now rewrite (list_products_loop_all _ _ Hps []). }
  split; [now apply Hlist|].
  rewrite featured_products_eq_list. apply Hlist. lia.
Qed.

End RoundTrip.

(** A fresh store, listed with limit 10. *)
Lemma seed_then_list_witness :
  db (shop []) = Some {| db_name := Some "shop";
                         collections := {[ "product" := [] ]}; next_id := 0 |}
  /\ faults (shop []) = []
  /\ collection {| db_name := Some "shop";
                   collections := {[ "product" := [] ]}; next_id := 0 |} "product" = []
  /\ 4 <= 10
  /\ (exists out w',
        list_products (H := bare_text) 10 None (shop []) = (Ok out, w')
        /\ with_id None <$> out = SAMPLE_OUT)
  /\ (exists out w',
        featured_products (H := bare_text) (shop []) = (Ok out, w')
        /\ with_id None <$> out = SAMPLE_OUT).
Proof.
  split; [reflexivity|]. split; [reflexivity|]. split; [reflexivity|].
  split; [lia|].
  apply (seed_then_list (H := bare_text) 10 (shop []) _ eq_refl eq_refl eq_refl).
  lia.
Defined.

(** *** What the diagnostic endpoint reports *)

Lemma wp_on_snd_run {S L A} (m : M S A) (Q : A -> L * S -> Prop) E (l : L) (s : S) :
  match m s with
  | (Ok a, s') => Q a (l, s')
  | (Raise e, s') => E e (l, s')
  end ->
  wp (on_snd m) Q E (l, s).
Proof.
  unfold wp, on_snd. simpl. destruct (m s) as [[a|e] s']; intros HQ; exact HQ.
Qed.

Lemma store_call_environ {A} (name : StoreOp) (op : Database -> A * Database)
    (w : World) :
  environ (store_call name op w).2 = environ w.
Proof.
  unfold store_call. simpl. destruct (db w) as [d|]; [|reflexivity].
  destruct (faults w) as [|[msg|] fs]; try reflexivity; now destruct (op d).
Qed.

Lemma store_call_trace {A} (name : StoreOp) (op : Database -> A * Database)
    (w : World) :
  trace (store_call name op w).2 = (trace w ++ [name])%list.
Proof.
  unfold store_call. simpl. destruct (db w) as [d|]; [|reflexivity].
  destruct (faults w) as [|[msg|] fs]; try reflexivity; now destruct (op d).
Qed.

Ltac wp_run :=
  cbv beta;
  lazymatch goal with
  | |- wp (with_local _ _) _ _ _ => apply wp_with_local
  | |- wp (bind _ _) _ _ _ => apply wp_bind
  | |- wp (try_except _ _) _ _ _ => apply wp_try
  | |- wp (set_item _ _) _ _ _ => apply wp_set_item
  | |- wp (on_snd (gets _)) _ _ _ => apply wp_on_snd_gets
  | |- wp (on_snd (getenv _)) _ _ _ => unfold getenv; apply wp_on_snd_gets
  | |- wp (gets _) _ _ _ => apply wp_gets
  end.

(** Every run of [test_database] returns, and reports the environment
    and the store as follows. *)
Lemma test_database_run (w : World) :
  wp test_database
     (fun response w' =>
        response !! "backend" = Some (VStr "✅ Running")
        /\ response !! "database_url" = Some (env_status (environ w !! "DATABASE_URL"))
        /\ response !! "database_name" = Some (env_status (environ w !! "DATABASE_NAME"))
        /\ store_report w response w')
     (fun _ _ => False) w.
Proof.
  unfold test_database, store_report.
  pose proof (store_call_environ ListCollectionNames
                (fun d => ((map_to_list (collections d)).*1, d)) w) as Henv.
  fold list_collection_names in Henv.
  repeat wp_run. destruct (db w) as [d|] eqn:Hdb.
  - repeat wp_run. apply wp_on_snd_run.
    destruct (list_collection_names w) as [[names|e] w1]; cbn [snd] in Henv;
      repeat wp_run; cbn [fst snd]; rewrite Henv; repeat split; reflexivity.
  - repeat wp_run. cbn [fst snd]. repeat split; reflexivity.
Qed.

(** X11: the two configuration entries of the report come from the
    process environment alone.  In every world ["database_url"] and
    ["database_name"] say whether [DATABASE_URL] and [DATABASE_NAME] are
    set to a non-empty string; what the handler wrote there from the
    store handle, the database's name included, is overwritten. *)
Theorem test_database_reports_environment (w : World) :
  exists response w',
    test_database w = (Ok response, w')
    /\ response !! "database_url"
       = Some (VStr (if env_truthy (environ w !! "DATABASE_URL")
                     then "✅ Set" else "❌ Not Set"))
    /\ response !! "database_name"
       = Some (VStr (if env_truthy (environ w !! "DATABASE_NAME")
                     then "✅ Set" else "❌ Not Set")).
Proof.
  destruct (wp_returns _ _ _ (test_database_run w))
    as (response & w' & Hrun & _ & Hurl & Hname & _).
  now exists response, w'.
Qed.

(** X12: the store part of the report.  With the handle unset the
    handler makes no store call and reports an uninitialized database,
    no connection and no collections.  With a handle it makes one call,
    [list_collection_names], and reports a connection; then a working
    database and the first ten names when the call returns, and the
    first fifty characters of the exception's text and no collections
    when it raises. *)
Theorem test_database_reports_store (w : World) :
  exists response w',
    test_database w = (Ok response, w')
    /\ response !! "backend" = Some (VStr "✅ Running")
    /\ store_report w response w'
    /\ trace w' = (trace w ++ match db w with
                             | Some _ => [ListCollectionNames]
                             | None => []
                             end)%list.
Proof.
  destruct (wp_returns _ _ _ (test_database_run w))
    as (response & w' & Hrun & Hback & _ & _ & Hstore).
  exists response, w'. repeat split; try assumption.
  unfold store_report in Hstore. destruct (db w) as [d|].
  - destruct Hstore as (-> & _). apply store_call_trace.
  - destruct Hstore as (-> & _). now rewrite app_nil_r.
Qed.

(** *** Normalization in the handlers *)

Section Normalized.
Context `{Text}.

(** The documents a handler reads: the answer of the store query, or
    the slice of the sample when the query raises.  Reading never fails. *)
Lemma list_products_items_read (limit : Z) (cat : option string) (w : World) :
  exists items w2,
    list_products_items limit cat w = (Ok items, w2)
    /\ (get_documents "product" (filter_dict_of cat) limit (ensure_seed w).2
          = (Ok items, w2)
        \/ exists e,
             get_documents "product" (filter_dict_of cat) limit (ensure_seed w).2
               = (Raise e, w2)
             /\ items = slice_to limit SAMPLE_PRODUCTS).
Proof.
  unfold list_products_items.
  rewrite (bind_ok _ _ _ _ _ (ensure_seed_ok w)).
  destruct (get_documents "product" (filter_dict_of cat) limit (ensure_seed w).2)
    as [[items|e] w2] eqn:Hq.
  - exists items, w2. split; [now apply try_ok|now left].
  - exists (slice_to limit SAMPLE_PRODUCTS), w2.
    split; [now rewrite (try_raise _ _ _ _ _ Hq)|]. right. now exists e.
Qed.

Lemma normalized_all (items : list document) (out : list ProductOut) :
  Forall2 (fun doc p => list_products_normalize doc = Ok p) items out ->
  Forall2 normalized items out.
Proof.
  induction 1 as [|doc p items out Hp _ IH]; constructor;
    [now apply list_products_normalize_inv|exact IH].
Qed.

(** The loop returns exactly the products of the documents it is given,
    each by the rules, and it does return when each document is one the
    normalization accepts. *)
Lemma list_products_loop_normalized (items : list document) :
  (forall out, list_products_loop items [] = Ok out -> Forall2 normalized items out)
  /\ (Forall acceptable items ->
      exists out, list_products_loop items [] = Ok out
                  /\ Forall2 normalized items out).
Proof.
  split.
  - intros out Hl. destruct (list_products_loop_inv _ _ _ Hl) as (ps & -> & Hps).
    now apply normalized_all.
  - intros Hall.
    assert (exists ps, Forall2 (fun doc p => list_products_normalize doc = Ok p)
                         items ps) as (ps & Hps).
    { clear - Hall. induction Hall as [|doc items Hdoc _ (ps & IH)].
      - exists []. constructor.
      - apply normalizes_iff_acceptable in Hdoc as (p & Hp).
        exists (p :: ps). now constructor. }
    exists ps. split; [apply (list_products_loop_all _ _ Hps [])|].
    now apply normalized_all.
Qed.

(** C1: every raw document [list_products] or [featured_products]
    processes, from the store or from the fallback, is normalized by the
    documented rules.  The products a handler returns are, one for one
    and in order, those of the documents it read, each with [id] the
    text of the store identity (absent when that text is empty or the
    identity is missing), [price] the float coercion of the document's
    price ([0.0] when missing), [in_stock] its boolean coercion (true
    when missing), [category] the document's (["shoes"] when absent) and
    [description], [image], [brand], [colors] passed through; and the
    handler does return them when each document read is one the
    normalization accepts. *)
Theorem normalization_rules (limit : Z) (cat : option string) (w : World) :
  (exists items w2,
     list_products_items limit cat w = (Ok items, w2)
     /\ (get_documents "product" (filter_dict_of cat) limit (ensure_seed w).2
           = (Ok items, w2)
         \/ exists e,
              get_documents "product" (filter_dict_of cat) limit (ensure_seed w).2
                = (Raise e, w2)
              /\ items = slice_to limit SAMPLE_PRODUCTS)
     /\ (forall out w',
           list_products limit cat w = (Ok out, w') ->
           w' = w2 /\ Forall2 normalized items out)
     /\ (Forall acceptable items ->
         exists out, list_products limit cat w = (Ok out, w2)
                     /\ Forall2 normalized items out))
  /\ (exists items w2,
        featured_products_items w = (Ok items, w2)
        /\ (forall out w',
              featured_products w = (Ok out, w') ->
              w' = w2 /\ Forall2 normalized items out)
        /\ (Forall acceptable items ->
            exists out, featured_products w = (Ok out, w2)
                        /\ Forall2 normalized items out)).
Proof.
  split.
  - destruct (list_products_items_read limit cat w) as (items & w2 & Hitems & Hsrc).
    exists items, w2. split; [exact Hitems|]. split; [exact Hsrc|].
    assert (Hrun : list_products limit cat w = (list_products_loop items [], w2)).
    { unfold list_products. now rewrite (bind_ok _ _ _ _ _ Hitems). }
    destruct (list_products_loop_normalized items) as (Hinv & Hall).
    split.
    + intros out w' Hout. rewrite Hrun in Hout. injection Hout as Hl <-.
      split; [reflexivity|now apply Hinv].
    + intros Hacc. destruct (Hall Hacc) as (out & Hl & Hnorm).
      exists out. split; [now rewrite Hrun, Hl|exact Hnorm].
  - destruct (list_products_items_read 4 None w) as (items & w2 & Hitems & _).
    change (list_products_items 4 None) with featured_products_items in Hitems.
    exists items, w2. split; [exact Hitems|].
    assert (Hrun : featured_products w = (list_products_loop items [], w2)).
    { unfold featured_products. rewrite (bind_ok _ _ _ _ _ Hitems).
      unfold lift. now rewrite featured_products_loop_eq. }
    destruct (list_products_loop_normalized items) as (Hinv & Hall).
    split.
    + intros out w' Hout. rewrite Hrun in Hout. injection Hout as Hl <-.
      split; [reflexivity|now apply Hinv].
    + intros Hacc. destruct (Hall Hacc) as (out & Hl & Hnorm).
      exists out. split; [now rewrite Hrun, Hl|exact Hnorm].
Qed.

End Normalized.

(** The rules of C1 in both handlers, on a store that holds a document
    whose price is an [int] and which has no [in_stock], [description],
    [image] or [brand]. *)
Lemma normalization_rules_witness :
  list_products (H := bare_text) 20 None (shop [stored_runner])
  = (Ok [runner_out],
     (list_products (H := bare_text) 20 None (shop [stored_runner])).2)
  /\ featured_products (H := bare_text) (shop [stored_runner])
     = (Ok [runner_out], (featured_products (H := bare_text) (shop [stored_runner])).2)
  /\ Forall2 (normalized (H := bare_text)) [stored_runner] [runner_out].
Proof.
  assert (Hl : list_products (H := bare_text) 20 None (shop [stored_runner])
               = (Ok [runner_out],
                  (list_products (H := bare_text) 20 None (shop [stored_runner])).2))
    by reflexivity.
  assert (Hf : featured_products (H := bare_text) (shop [stored_runner])
               = (Ok [runner_out],
                  (featured_products (H := bare_text) (shop [stored_runner])).2))
    by reflexivity.
  split; [exact Hl|]. split; [exact Hf|].
  destruct (normalization_rules (H := bare_text) 20 None (shop [stored_runner]))
    as ((items & w2 & Hitems & _ & Hout & _) & _).
  assert (Hread : list_products_items 20 None (shop [stored_runner])
                  = (Ok [stored_runner],
                     (list_products_items 20 None (shop [stored_runner])).2))
    by reflexivity.
  rewrite Hread in Hitems. injection Hitems as <- _.
  apply (Hout _ _ Hl).
Defined.

(** [str(e)[:50]] counts characters: thirty accented letters are kept
    whole, and of sixty the first fifty are kept. *)
Example str_slice_to_characters :
  str_slice_to 50 "éééééééééééééééééééééééééééééé"
  = "éééééééééééééééééééééééééééééé"
  /\ str_slice_to 50
       "éééééééééééééééééééééééééééééééééééééééééééééééééééééééééééé"
     = "éééééééééééééééééééééééééééééééééééééééééééééééééé"
  /\ str_slice_to 5 "timed out" = "timed".
Proof. repeat split; reflexivity. Qed.
